(** * Debug configuration manager (arduino-ide-extension)

    A shallow embedding of
    [arduino-ide-extension/src/browser/theia/debug/debug-configuration-manager.ts]:
    the resolution and reading of the temporary [launch.json]
    ([getTempLaunchJsonContent]), the reconciliation of the per-root model map
    against the workspace roots (the body of [updateModels]) and the file-change
    listener installed by [doInit].

    Asynchronous code is embedded as a state-and-exception monad over the
    manager's state: every [await] is a sequential step, a rejected promise is
    a thrown error.  The injected services (sketches, file service, workspace,
    application state) are an interface whose operations act on an abstract
    external world and may answer differently at every call.  What the
    manager does to the outside (the calls of the file and sketch services,
    [console.error], the firing of its emitter, the disposal of a model, the
    call of the inherited [updateCurrent]) is recorded, in order, in a log.

    The wrapper [debounce(..., 500)] of [updateModels] comes from the package
    [p-debounce] and is not embedded: [updateModels] below is the function it
    wraps, one reconciliation pass.  A pass is embedded twice: as a whole,
    from its start to its end, and from one [await] to the next, so that two
    passes, or a pass and anything else of the session, can take turns; the
    two are proved to agree on a pass that runs alone. *)

From Stdlib Require Import List String Ascii Bool Arith Lia.
Import ListNotations.
Open Scope string_scope.
Open Scope list_scope.

Set Implicit Arguments.

(** ** Errors *)

(** [FileOperationResult] of [@theia/filesystem/lib/common/files]. *)
Inductive FileOperationResult :=
| FILE_IS_DIRECTORY
| FILE_NOT_FOUND
| FILE_NOT_MODIFIED_SINCE
| FILE_MODIFIED_SINCE
| FILE_MOVE_CONFLICT
| FILE_READ_ONLY
| FILE_PERMISSION_DENIED
| FILE_TOO_LARGE
| FILE_INVALID_PATH
| FILE_EXCEEDS_MEMORY_LIMIT
| FILE_NOT_DIRECTORY
| FILE_OTHER_ERROR.

(** Values that can be thrown: a [FileOperationError] carrying its
    [fileOperationResult], a [SyntaxError] (what [JSON.parse] throws), or any
    other error. *)
Inductive JsError :=
| FileOperationError (message : string) (fileOperationResult : FileOperationResult)
| SyntaxError (message : string)
| OtherError (message : string).

(** The test of the [catch] block:
    [err instanceof FileOperationError &&
     err.fileOperationResult === FileOperationResult.FILE_NOT_FOUND]. *)
Definition isFileNotFound (err : JsError) : bool :=
  match err with
  | FileOperationError _ FILE_NOT_FOUND => true
  | _ => false
  end.

Inductive Result (A : Type) :=
| Ok (a : A)
| Throw (err : JsError).
Arguments Ok {A} a.
Arguments Throw {A} err.

(** ** URIs and paths

    The part of Theia's [URI] and [Path] the manager uses: a URI is a scheme
    and the list of its path segments, root first. *)

Record URI := mkURI { scheme : string; segments : list string }.

(** [uri.path.base] *)
Definition path_base (u : URI) : string := last (segments u) "".
(** [uri.parent] *)
Definition uri_parent (u : URI) : URI := mkURI (scheme u) (removelast (segments u)).
(** [uri.resolve(name)] *)
Definition uri_resolve (u : URI) (name : string) : URI :=
  mkURI (scheme u) (segments u ++ [name]).
(** [uri.toString()] *)
Definition uri_toString (u : URI) : string :=
  (scheme u ++ "://" ++ String.concat "" (map (fun s => "/" ++ s) (segments u)))%string.

(** [String.prototype.toLowerCase], on the ASCII letters: strings are
    sequences of bytes here, and the letters outside [A]-[Z], which
    JavaScript lowers by the Unicode tables, are left as they are.  The names
    it is applied to are those of the temp folders, [arduino-ide2-] followed
    by hexadecimal digits (lines 53-54 of the source). *)
Definition lower_ascii (c : ascii) : ascii :=
  let n := nat_of_ascii c in
  if ((65 <=? n) && (n <=? 90))%nat then ascii_of_nat (n + 32) else c.

Fixpoint toLowerCase (s : string) : string :=
  match s with
  | EmptyString => EmptyString
  | String c rest => String (lower_ascii c) (toLowerCase rest)
  end.

(** ** Data *)

(** [DebugConfiguration] of [@theia/debug/lib/common/debug-common]: the three
    mandatory attributes. *)
Record DebugConfiguration := mkDebugConfiguration {
  dc_type : string;
  dc_name : string;
  dc_request : string
}.

(** What [JSON.parse] returns. *)
#[local] Unset Elimination Schemes.
Inductive Json :=
| JNull
| JBool (b : bool)
| JNumber (n : nat)
| JString (s : string)
| JArray (items : list Json)
| JObject (fields : list (string * Json)).
#[local] Set Elimination Schemes.

(** [TheiaDebugConfigurationModel.JsonContent & { uri: URI }]; this manager
    never has compounds. *)
Record JsonContent := mkJsonContent {
  uri : URI;
  configurations : list DebugConfiguration;
  compounds : list string
}.

(** The defined results of [getTempLaunchJsonContent]: the temp folder's URI
    when there is no [launch.json] yet ([tempContent instanceof URI]), or the
    parsed content. *)
Inductive TempContent :=
| TempFolder (tempFolderUri : URI)
| Content (content : JsonContent).

Record Sketch := mkSketch { sketch_name : string; sketch_uri : string }.

(** [CurrentSketch = Sketch | 'invalid'] *)
Inductive CurrentSketch :=
| ValidSketch (sketch : Sketch)
| InvalidSketch.

(** [CurrentSketch.isValid]; the embedding tests it by matching, which also
    gives the sketch. *)
Definition CurrentSketch_isValid (s : CurrentSketch) : bool :=
  match s with ValidSketch _ => true | InvalidSketch => false end.

Record FileStat := mkFileStat { resource : URI }.
Record FileChange := mkFileChange { change_resource : URI }.
Record FileChangesEvent := mkFileChangesEvent { changes : list FileChange }.

(** The two closures the manager registers on a model, defunctionalised:
    [() => this.updateCurrent()] and [() => this.models.delete(key)]. *)
Inductive Callback :=
| CbUpdateCurrent
| CbModelsDelete (key : string).

(** The event [this.onTempContentDidChange] of the manager: the event of its
    one emitter, [onTempContentDidChangeEmitter]. *)
Inductive TempContentEvent := OnTempContentDidChange.

(** Modelled from the spec: the class [DebugConfigurationModel] of
    [./debug-configuration-model] is not among the sources.  A model has its
    owning root key, its ordered configuration entries, an optional backing
    file URI, the event of changed temp contents it was constructed with, and
    the listeners of its change and disposal notifications.  What a model
    does when that event fires is inside the class: the embedding records the
    firing, [EvFireTempContent], and not what the models make of it. *)
Record DebugConfigurationModel := mkModel {
  workspaceFolderUri : string;
  config : list DebugConfiguration;
  configUri : option URI;
  onConfigDidChange : TempContentEvent;
  onDidChangeListeners : list Callback;
  onDisposeListeners : list Callback
}.

(** [new DebugConfigurationModel(key, this.preferences, configurations, uri,
    this.onTempContentDidChange)]; the preferences play no part here. *)
Definition new_DebugConfigurationModel (key : string)
    (configurations : list DebugConfiguration) (uri : option URI)
    (onTempContentDidChange : TempContentEvent)
  : DebugConfigurationModel :=
  mkModel key configurations uri onTempContentDidChange [] [].

Definition model_onDidChange (m : DebugConfigurationModel) (cb : Callback) :=
  mkModel (workspaceFolderUri m) (config m) (configUri m) (onConfigDidChange m)
          (onDidChangeListeners m ++ [cb]) (onDisposeListeners m).

Definition model_onDispose (m : DebugConfigurationModel) (cb : Callback) :=
  mkModel (workspaceFolderUri m) (config m) (configUri m) (onConfigDidChange m)
          (onDidChangeListeners m) (onDisposeListeners m ++ [cb]).

(** ** JavaScript [Map] and [Set] with string keys, in insertion order *)

Module JsMap.
Definition t (V : Type) := list (string * V).

Definition keys {V} (m : t V) : list string := map fst m.

Fixpoint get {V} (k : string) (m : t V) : option V :=
  match m with
  | [] => None
  | (k', v) :: rest => if String.eqb k' k then Some v else get k rest
  end.

Definition has {V} (k : string) (m : t V) : bool :=
  match get k m with Some _ => true | None => false end.

(** [set] keeps the position of a key that is already there. *)
Fixpoint set {V} (k : string) (v : V) (m : t V) : t V :=
  match m with
  | [] => [(k, v)]
  | (k', v') :: rest =>
      if String.eqb k' k then (k, v) :: rest else (k', v') :: set k v rest
  end.

Definition delete {V} (k : string) (m : t V) : t V :=
  filter (fun kv => negb (String.eqb (fst kv) k)) m.
End JsMap.

Module JsSet.
Definition t := list string.
Definition delete (k : string) (s : t) : t :=
  filter (fun k' => negb (String.eqb k' k)) s.
End JsSet.

(** ** Observable effects *)

Inductive Event :=
| EvCurrentSketch                                   (* sketchesServiceClient.currentSketch() *)
| EvGetIdeTempFolderUri (sketch : Sketch)           (* sketchesService.getIdeTempFolderUri(sketch) *)
| EvCreateFolder (u : URI)                          (* fileService.createFolder(u) *)
| EvRead (u : URI)                                  (* fileService.read(u) *)
| EvWatch (u : URI)                                 (* fileService.watch(u) *)
| EvConsoleError (message : string) (err : JsError) (* console.error(message, err) *)
| EvFireTempContent (content : JsonContent)         (* onTempContentDidChangeEmitter.fire(content) *)
| EvDispose (key : string)                          (* model.dispose() *)
| EvUpdateCurrent                                   (* this.updateCurrent() *)
| EvUpdateModels                                    (* this.updateModels(): a pass is asked for *)
| EvUnhandledRejection (err : JsError).             (* a detached promise rejected *)

(** ** The injected services *)

Class Services (W : Type) := {
  (** [appStateService.reachedState('ready')] *)
  appStateService_reachedState_ready : W -> Result unit * W;
  (** [workspaceService.roots] *)
  workspaceService_roots : W -> Result (list FileStat) * W;
  (** [sketchesServiceClient.currentSketch()] *)
  sketchesServiceClient_currentSketch : W -> Result CurrentSketch * W;
  (** [sketchesService.getIdeTempFolderUri(sketch)] *)
  sketchesService_getIdeTempFolderUri : Sketch -> W -> Result string * W;
  (** [fileService.createFolder(uri)] *)
  fileService_createFolder : URI -> W -> Result unit * W;
  (** [fileService.read(uri)], the [value] of the result *)
  fileService_read : URI -> W -> Result string * W;
  (** [fileService.watch(uri)] *)
  fileService_watch : URI -> W -> Result unit * W;
  (** [new URI(string)] *)
  new_URI : string -> URI;
  (** [JSON.parse] *)
  JSON_parse : string -> Result Json;
  (** [DebugConfigurationModel.parse] of [./debug-configuration-model] *)
  DebugConfigurationModel_parse : Json -> Result (list DebugConfiguration)
}.

(** ** The manager's state and its monad *)

Record Manager (W : Type) := mkManager {
  world : W;
  models : JsMap.t DebugConfigurationModel;
  (** the listener installed on [fileService.onDidFilesChange], by the
      [tempFolderName] it captured *)
  filesChangeListeners : list string;
  log : list Event
}.

Definition M (W A : Type) := Manager W -> Result A * Manager W.

Section Monad.
Context {W : Type}.

Definition ret {A} (a : A) : M W A := fun s => (Ok a, s).

Definition bind {A B} (m : M W A) (k : A -> M W B) : M W B :=
  fun s => match m s with
           | (Ok a, s') => k a s'
           | (Throw e, s') => (Throw e, s')
           end.

Definition throw {A} (e : JsError) : M W A := fun s => (Throw e, s).

(** [try { m } catch (err) { handler err }] *)
Definition try_catch {A} (m : M W A) (handler : JsError -> M W A) : M W A :=
  fun s => match m s with
           | (Ok a, s') => (Ok a, s')
           | (Throw e, s') => handler e s'
           end.

(** A promise nobody awaits: [m.then(...)] with no rejection handler. *)
Definition detached (m : M W unit) : M W unit :=
  fun s => match m s with
           | (Ok _, s') => (Ok tt, s')
           | (Throw e, s') =>
               (Ok tt, mkManager (world s') (models s') (filesChangeListeners s')
                                 (log s' ++ [EvUnhandledRejection e]))
           end.

Definition emit (e : Event) : M W unit :=
  fun s => (Ok tt, mkManager (world s) (models s) (filesChangeListeners s)
                             (log s ++ [e])).

Definition getModels : M W (JsMap.t DebugConfigurationModel) :=
  fun s => (Ok (models s), s).

Definition setModels (m : JsMap.t DebugConfigurationModel) : M W unit :=
  fun s => (Ok tt, mkManager (world s) m (filesChangeListeners s) (log s)).

Definition addFilesChangeListener (tempFolderName : string) : M W unit :=
  fun s => (Ok tt, mkManager (world s) (models s)
                             (filesChangeListeners s ++ [tempFolderName]) (log s)).

(** A call of a service: it acts on the world only. *)
Definition call {A} (f : W -> Result A * W) : M W A :=
  fun s => let (r, w) := f (world s) in
           (r, mkManager w (models s) (filesChangeListeners s) (log s)).

Definition lift {A} (r : Result A) : M W A := fun s => (r, s).
End Monad.

Notation "x <- m ;; k" := (bind m (fun x => k))
  (at level 61, m at next level, right associativity).
Notation "m ;;; k" := (bind m (fun _ => k))
  (at level 61, right associativity).

(** ** The manager *)

Section Manager.
Context {W : Type} `{Services W}.

Definition launch_json : string := "launch.json".
Definition load_error_message : string :=
  "Could not load debug configuration from IDE2 temp folder.".

(** The body of the [try] block of [getTempLaunchJsonContent]. *)
Definition readLaunchJson (tempFolderUri : URI) : M W (option TempContent) :=
  let uri := uri_resolve tempFolderUri launch_json in
  emit (EvRead uri) ;;;
  value <- call (fileService_read uri) ;;
  json <- lift (JSON_parse value) ;;
  configurations <- lift (DebugConfigurationModel_parse json) ;;
  ret (Some (Content (mkJsonContent uri configurations []))).

Definition getTempLaunchJsonContent : M W (option TempContent) :=
  emit EvCurrentSketch ;;;
  sketch <- call sketchesServiceClient_currentSketch ;;
  match sketch with
  | InvalidSketch => ret None
  | ValidSketch sk =>
      emit (EvGetIdeTempFolderUri sk) ;;;
      uri <- call (sketchesService_getIdeTempFolderUri sk) ;;
      let tempFolderUri := new_URI uri in
      emit (EvCreateFolder tempFolderUri) ;;;
      call (fileService_createFolder tempFolderUri) ;;;
      try_catch (readLaunchJson tempFolderUri)
        (fun err =>
           if isFileNotFound err then ret (Some (TempFolder tempFolderUri))
           else
             emit (EvConsoleError load_error_message err) ;;;
             throw err)
  end.

(** [this.updateCurrent()], inherited: only its call is observed. *)
Definition updateCurrent : M W unit := emit EvUpdateCurrent.

Definition run_callback (cb : Callback) : M W unit :=
  match cb with
  | CbUpdateCurrent => updateCurrent
  | CbModelsDelete key =>
      m <- getModels ;; setModels (JsMap.delete key m)
  end.

Fixpoint run_callbacks (cbs : list Callback) : M W unit :=
  match cbs with
  | [] => ret tt
  | cb :: rest => run_callback cb ;;; run_callbacks rest
  end.

(** Modelled from the spec: [model.dispose()] of the absent model class
    notifies the model's disposal listeners. *)
Definition model_dispose (m : DebugConfigurationModel) : M W unit :=
  emit (EvDispose (workspaceFolderUri m)) ;;;
  run_callbacks (onDisposeListeners m).

(** The body of [if (!this.models.has(key)) { ... }]. *)
Definition createModel (key : string) : M W unit :=
  tempContent <- getTempLaunchJsonContent ;;
  match tempContent with
  | None => ret tt
  | Some tc =>
      let configurations :=
        match tc with TempFolder _ => [] | Content c => configurations c end in
      let uri :=
        match tc with TempFolder _ => None | Content c => Some (uri c) end in
      let model :=
        new_DebugConfigurationModel key configurations uri OnTempContentDidChange in
      let model := model_onDidChange model CbUpdateCurrent in
      let model := model_onDispose model (CbModelsDelete key) in
      m <- getModels ;; setModels (JsMap.set key model m)
  end.

(** One iteration of [for (const rootStat of roots)], without the update of
    [toDelete]. *)
Definition visitRoot (key : string) : M W unit :=
  m <- getModels ;;
  if negb (JsMap.has key m) then createModel key else ret tt.

(** [for (const rootStat of roots) { ... }]; the local set [toDelete] is
    threaded through and returned. *)
Fixpoint forRoots (roots : list FileStat) (toDelete : JsSet.t) : M W JsSet.t :=
  match roots with
  | [] => ret toDelete
  | rootStat :: rest =>
      let key := uri_toString (resource rootStat) in
      let toDelete := JsSet.delete key toDelete in
      visitRoot key ;;;
      forRoots rest toDelete
  end.

(** [for (const uri of toDelete) { ... }] *)
Fixpoint forToDelete (toDelete : JsSet.t) : M W unit :=
  match toDelete with
  | [] => ret tt
  | uri :: rest =>
      m <- getModels ;;
      match JsMap.get uri m with
      | Some model => model_dispose model
      | None => ret tt
      end ;;;
      forToDelete rest
  end.

(** [updateModels] from [const toDelete = ...] on, for the roots read. *)
Definition reconcileRoots (roots : list FileStat) : M W unit :=
  m <- getModels ;;
  toDelete <- forRoots roots (JsMap.keys m) ;;
  forToDelete toDelete ;;;
  updateCurrent.

(** The function that [updateModels] debounces. *)
Definition updateModels : M W unit :=
  call appStateService_reachedState_ready ;;;
  roots <- call workspaceService_roots ;;
  reconcileRoots roots.

(** The condition of the listener on a changed resource. *)
Definition isTempLaunchJson (tempFolderName : string) (resource : URI) : bool :=
  String.eqb (path_base resource) launch_json
  && String.eqb (toLowerCase (path_base (uri_parent resource))) tempFolderName.

(** [this.getTempLaunchJsonContent().then((config) => { ... })] *)
Definition rereadTempContent : M W unit :=
  detached
    (config <- getTempLaunchJsonContent ;;
     match config with
     | Some (Content c) => emit (EvFireTempContent c)
     | _ => ret tt
     end).

(** [for (const { resource } of event.changes) { ... break; }] *)
Fixpoint forChanges (tempFolderName : string) (changes : list FileChange) : M W unit :=
  match changes with
  | [] => ret tt
  | ch :: rest =>
      if isTempLaunchJson tempFolderName (change_resource ch)
      then rereadTempContent
      else forChanges tempFolderName rest
  end.

(** The listener that [doInit] installs on [fileService.onDidFilesChange]. *)
Definition onDidFilesChange_listener (tempFolderName : string)
    (event : FileChangesEvent) : M W unit :=
  forChanges tempFolderName (changes event).

(** The name [doInit] compares against. *)
Definition tempFolderNameOf (tempContent : TempContent) : string :=
  toLowerCase
    (path_base
       (match tempContent with
        | TempFolder u => u
        | Content c => uri_parent (uri c)
        end)).

(** The callback of [reachedState('ready').then(...)] in [doInit].  Its
    closing call [this.updateModels()] asks the debounce wrapper for a pass
    and awaits nothing: the call is recorded, the pass it brings is a pass of
    its own. *)
Definition doInit_ready : M W unit :=
  tempContent <- getTempLaunchJsonContent ;;
  match tempContent with
  | None => ret tt
  | Some tc =>
      let watched :=
        match tc with TempFolder u => u | Content c => uri c end in
      emit (EvWatch watched) ;;;
      call (fileService_watch watched) ;;;
      addFilesChangeListener (tempFolderNameOf tc) ;;;
      emit EvUpdateModels
  end.
End Manager.

(** ** A pass, from one suspension to the next

    [updateModels] is an [async] function: between two [await]s it runs
    without interruption, and at an [await] anything else of the session can
    run.  A pass in progress is where it is suspended, with its local
    variables; [resume] runs it to its next suspension.  A call of a service
    and its answer are one step. *)

(** Where [getTempLaunchJsonContent] is suspended. *)
Inductive Resolving :=
| ToSketch                               (* await this.sketchesServiceClient.currentSketch() *)
| ToFolderUri (sketch : Sketch)          (* await this.sketchesService.getIdeTempFolderUri(sketch) *)
| ToCreateFolder (tempFolderUri : URI)   (* await this.fileService.createFolder(tempFolderUri) *)
| ToRead (tempFolderUri : URI).          (* await this.fileService.read(uri) *)

(** Where a pass is suspended: before the wait for the ready state, before
    the read of the roots, or inside the resolution for the root [key], with
    the roots read, those still to visit and the set [toDelete]; or ended,
    with the roots it had read, if any, and its result. *)
Inductive Pass :=
| AtReady
| AtRoots
| AtResolve (roots : list FileStat) (key : string) (rest : list FileStat)
            (toDelete : JsSet.t) (stage : Resolving)
| Finished (roots : option (list FileStat)) (result : Result unit).


(** The roots a suspended pass has read. *)
Definition snapshotOf (p : Pass) : option (list FileStat) :=
  match p with
  | AtResolve roots _ _ _ _ => Some roots
  | Finished roots _ => roots
  | _ => None
  end.

Section Threads.
Context {W : Type} `{Services W}.

(** The [catch] block of [getTempLaunchJsonContent]. *)
Definition catchReadError (tempFolderUri : URI) (err : JsError)
  : M W (option TempContent) :=
  if isFileNotFound err then ret (Some (TempFolder tempFolderUri))
  else
    emit (EvConsoleError load_error_message err) ;;;
    throw err.

(** [getTempLaunchJsonContent] from one [await] to the next: the next
    suspension, or what the function returns. *)
Definition resolveStep (stage : Resolving)
  : M W (Resolving + option TempContent) :=
  match stage with
  | ToSketch =>
      emit EvCurrentSketch ;;;
      sketch <- call sketchesServiceClient_currentSketch ;;
      match sketch with
      | InvalidSketch => ret (inr None)
      | ValidSketch sk => ret (inl (ToFolderUri sk))
      end
  | ToFolderUri sk =>
      emit (EvGetIdeTempFolderUri sk) ;;;
      uri <- call (sketchesService_getIdeTempFolderUri sk) ;;
      ret (inl (ToCreateFolder (new_URI uri)))
  | ToCreateFolder tempFolderUri =>
      emit (EvCreateFolder tempFolderUri) ;;;
      call (fileService_createFolder tempFolderUri) ;;;
      ret (inl (ToRead tempFolderUri))
  | ToRead tempFolderUri =>
      tempContent <- try_catch (readLaunchJson tempFolderUri)
                               (catchReadError tempFolderUri) ;;
      ret (inr tempContent)
  end.



(** What [updateModels] does with a resolved content, after the [await] of
    line 99: it builds the model and sets it, whatever the map has under the
    key by then. *)
Definition registerModel (key : string) (tc : TempContent) : M W unit :=
  let configurations :=
    match tc with TempFolder _ => [] | Content c => configurations c end in
  let uri :=
    match tc with TempFolder _ => None | Content c => Some (uri c) end in
  let model :=
    new_DebugConfigurationModel key configurations uri OnTempContentDidChange in
  let model := model_onDidChange model CbUpdateCurrent in
  let model := model_onDispose model (CbModelsDelete key) in
  m <- getModels ;; setModels (JsMap.set key model m).

(** The loop over the roots up to its next [await], for the roots [rest]
    still to visit; after the last root, the rest of the pass, which awaits
    nothing. *)
Fixpoint runLoop (roots rest : list FileStat) (toDelete : JsSet.t) : M W Pass :=
  match rest with
  | [] =>
      forToDelete toDelete ;;;
      updateCurrent ;;;
      ret (Finished (Some roots) (Ok tt))
  | rootStat :: rest =>
      let key := uri_toString (resource rootStat) in
      let toDelete := JsSet.delete key toDelete in
      m <- getModels ;;
      if negb (JsMap.has key m)
      then ret (AtResolve roots key rest toDelete ToSketch)
      else runLoop roots rest toDelete
  end.

(** The pass after the resolution for [key] returned. *)
Definition afterResolve (roots : list FileStat) (key : string)
    (rest : list FileStat) (toDelete : JsSet.t)
    (tempContent : option TempContent) : M W Pass :=
  match tempContent with
  | None => runLoop roots rest toDelete
  | Some tc => registerModel key tc ;;; runLoop roots rest toDelete
  end.

Definition resumeBody (p : Pass) : M W Pass :=
  match p with
  | AtReady =>
      call appStateService_reachedState_ready ;;;
      ret AtRoots
  | AtRoots =>
      roots <- call workspaceService_roots ;;
      m <- getModels ;;
      runLoop roots roots (JsMap.keys m)
  | AtResolve roots key rest toDelete stage =>
      next <- resolveStep stage ;;
      match next with
      | inl stage' => ret (AtResolve roots key rest toDelete stage')
      | inr tempContent => afterResolve roots key rest toDelete tempContent
      end
  | Finished _ _ => ret p
  end.

(** One step of a pass: to its next suspension, or to its end; an error
    thrown on the way ends the pass. *)
Definition resume (p : Pass) (s : Manager W) : Pass * Manager W :=
  match resumeBody p s with
  | (Ok p', s') => (p', s')
  | (Throw e, s') => (Finished (snapshotOf p) (Throw e), s')
  end.

End Threads.

(** ** A concrete world

    A small file system with one current sketch, used to run the manager on
    concrete inputs. *)

Module Sim.
Record World := mkWorld {
  currentSketch : CurrentSketch;
  roots : list FileStat;
  (** file contents, by [uri_toString] *)
  files : list (string * string);
  folders : list string;
  (** [createFolder] is refused *)
  readOnly : bool
}.

Fixpoint splitSlash (s : string) (cur : string) : list string :=
  match s with
  | EmptyString => match cur with EmptyString => [] | _ => [cur] end
  | String c rest =>
      if Ascii.eqb c "/"
      then match cur with
           | EmptyString => splitSlash rest EmptyString
           | _ => cur :: splitSlash rest EmptyString
           end
      else splitSlash rest (cur ++ String c EmptyString)%string
  end.

Definition parseUri (s : string) : URI := mkURI "file" (splitSlash s EmptyString).

Definition tempFolderOf (sk : Sketch) : string :=
  ("/tmp/arduino-ide2-" ++ sketch_name sk)%string.

Definition createFolder (u : URI) (w : World) : Result unit * World :=
  if readOnly w
  then (Throw (FileOperationError "Unable to create folder" FILE_PERMISSION_DENIED), w)
  else (Ok tt,
        mkWorld (currentSketch w) (roots w) (files w)
                (folders w ++ [uri_toString u]) (readOnly w)).

Definition read (u : URI) (w : World) : Result string * World :=
  match JsMap.get (uri_toString u) (files w) with
  | Some value => (Ok value, w)
  | None => (Throw (FileOperationError "Unable to read file" FILE_NOT_FOUND), w)
  end.

(** A parser for the two empty documents. *)
Definition parseJson (value : string) : Result Json :=
  if String.eqb value "{}" then Ok (JObject [])
  else if String.eqb value "[]" then Ok (JArray [])
  else Throw (SyntaxError "Unexpected token in JSON").

Definition parseConfigurations (j : Json) : Result (list DebugConfiguration) :=
  Ok [].

#[global] Instance services : Services World := {|
  appStateService_reachedState_ready := fun w => (Ok tt, w);
  workspaceService_roots := fun w => (Ok (roots w), w);
  sketchesServiceClient_currentSketch := fun w => (Ok (currentSketch w), w);
  sketchesService_getIdeTempFolderUri := fun sk w => (Ok (tempFolderOf sk), w);
  fileService_createFolder := createFolder;
  fileService_read := read;
  fileService_watch := fun _ w => (Ok tt, w);
  new_URI := parseUri;
  JSON_parse := parseJson;
  DebugConfigurationModel_parse := parseConfigurations
|}.

Definition blink : Sketch := mkSketch "a0337d47" "file:///home/user/Blink".
Definition tempFolder : URI := mkURI "file" ["tmp"; "arduino-ide2-a0337d47"].
Definition tempLaunchJson : URI := uri_resolve tempFolder launch_json.

Definition rootA : FileStat := mkFileStat (mkURI "file" ["home"; "user"; "Blink"]).
Definition rootB : FileStat := mkFileStat (mkURI "file" ["home"; "user"; "Sweep"]).
Definition keyA : string := uri_toString (resource rootA).
Definition keyB : string := uri_toString (resource rootB).

(** A valid sketch whose temp folder has no [launch.json]. *)
Definition noLaunchJson : World :=
  mkWorld (ValidSketch blink) [rootA] [] [] false.
(** The same with an empty [launch.json]. *)
Definition emptyLaunchJson : World :=
  mkWorld (ValidSketch blink) [rootA] [(uri_toString tempLaunchJson, "{}")] [] false.
(** The same with a [launch.json] that does not parse. *)
Definition brokenLaunchJson : World :=
  mkWorld (ValidSketch blink) [rootA; rootB]
          [(uri_toString tempLaunchJson, "{ configurations: ")] [] false.
(** A valid sketch whose temp folder cannot be created. *)
Definition readOnlyTemp : World :=
  mkWorld (ValidSketch blink) [rootA] [] [] true.
(** No sketch is open. *)
Definition noSketch : World :=
  mkWorld InvalidSketch [rootA] [] [] false.

Definition start (w : World) : Manager World := mkManager w [] [] [].
End Sim.

(** ** Vocabulary of the properties *)

Definition isCurrentSketch (e : Event) : bool :=
  match e with EvCurrentSketch => true | _ => false end.
Definition isCreateFolder (e : Event) : bool :=
  match e with EvCreateFolder _ => true | _ => false end.
Definition isRead (e : Event) : bool :=
  match e with EvRead _ => true | _ => false end.
Definition isConsoleError (e : Event) : bool :=
  match e with EvConsoleError _ _ => true | _ => false end.
Definition isFireTempContent (e : Event) : bool :=
  match e with EvFireTempContent _ => true | _ => false end.
Definition isDispose (e : Event) : bool :=
  match e with EvDispose _ => true | _ => false end.
Definition isUpdateCurrent (e : Event) : bool :=
  match e with EvUpdateCurrent => true | _ => false end.

Definition isUpdateModels (e : Event) : bool :=
  match e with EvUpdateModels => true | _ => false end.

(** How many of the events satisfy [p]. *)
Definition count (p : Event -> bool) (evs : list Event) : nat :=
  List.length (filter p evs).

(** The events of the services [getTempLaunchJsonContent] talks to, and its
    own [console.error]. *)
Definition isResolution (e : Event) : bool :=
  match e with
  | EvCurrentSketch | EvGetIdeTempFolderUri _ | EvCreateFolder _ | EvRead _
  | EvConsoleError _ _ => true
  | _ => false
  end.

(** [s] after service calls that left the world [w] and logged [evs]. *)
Definition after {W} (s : Manager W) (w : W) (evs : list Event) : Manager W :=
  mkManager w (models s) (filesChangeListeners s) (log s ++ evs).

(** [s] with another model map. *)
Definition withModels {W} (s : Manager W) (m : JsMap.t DebugConfigurationModel)
  : Manager W :=
  mkManager (world s) m (filesChangeListeners s) (log s).

(** [s] in another world. *)
Definition withWorld {W} (s : Manager W) (w : W) : Manager W :=
  mkManager w (models s) (filesChangeListeners s) (log s).

Definition rootKey (r : FileStat) : string := uri_toString (resource r).
Definition rootKeys (roots : list FileStat) : list string := map rootKey roots.

(** The model [updateModels] registers for [key]. *)
Definition registeredModel (key : string) (configurations : list DebugConfiguration)
    (uri : option URI) : DebugConfigurationModel :=
  mkModel key configurations uri OnTempContentDidChange
          [CbUpdateCurrent] [CbModelsDelete key].

(** The map as [updateModels] builds it: distinct keys, every model filed
    under its own root key and removing exactly that key when disposed. *)
Definition wf_models (m : JsMap.t DebugConfigurationModel) : Prop :=
  NoDup (JsMap.keys m) /\
  forall k v, JsMap.get k m = Some v ->
    workspaceFolderUri v = k /\ onDisposeListeners v = [CbModelsDelete k].

(** What [updateModels] seeds a new model with. *)
Definition modelFor (key : string) (tc : TempContent) : DebugConfigurationModel :=
  match tc with
  | TempFolder _ => registeredModel key [] None
  | Content c => registeredModel key (configurations c) (Some (uri c))
  end.

(** The keys of the map that are not among the roots, in the map's order. *)
Definition staleKeys (roots : list FileStat) (m : JsMap.t DebugConfigurationModel)
  : list string :=
  filter (fun k => negb (existsb (String.eqb k) (rootKeys roots))) (JsMap.keys m).

(** What the detached re-read of the listener adds to the log, by the result
    of the read. *)
Definition notification (r : Result (option TempContent)) : list Event :=
  match r with
  | Ok (Some (Content c)) => [EvFireTempContent c]
  | Ok _ => []
  | Throw e => [EvUnhandledRejection e]
  end.

(** The change is of a file named [launch.json] whose parent folder is named
    [folderName], up to case. *)
Definition matchesTempLaunchJson (folderName : string) (resource : URI) : Prop :=
  path_base resource = launch_json /\
  toLowerCase (path_base (uri_parent resource)) = toLowerCase folderName.


Section Vocabulary.
Context {W : Type} `{Services W}.

(** During the pass over [roots] from [s0], the loop reached a root with key
    [k] in state [s_i], while the map had no model for [k]. *)
Definition visitedAbsent (roots : list FileStat) (s0 : Manager W)
    (k : string) (s_i : Manager W) : Prop :=
  exists pre r post td,
    roots = pre ++ r :: post /\ rootKey r = k /\
    forRoots pre (JsMap.keys (models s0)) s0 = (Ok td, s_i) /\
    JsMap.has k (models s_i) = false.


(** The states of a session: from the empty map, through passes of
    [updateModels], whole (completed or not) or step by step and then
    interleaved with one another and with everything else, file-change
    notifications, [doInit], disposals of a model from outside and arbitrary
    changes of the outside world. *)
Inductive Reachable : Manager W -> Prop :=
| reach_start w : Reachable (mkManager w [] [] [])
| reach_updateModels s r s' :
    Reachable s -> updateModels s = (r, s') -> Reachable s'
| reach_filesChange s name event r s' :
    Reachable s -> onDidFilesChange_listener name event s = (r, s') ->
    Reachable s'
| reach_doInit s r s' :
    Reachable s -> doInit_ready s = (r, s') -> Reachable s'
| reach_resume s p p' s' :
    Reachable s -> resume p s = (p', s') -> Reachable s'
| reach_dispose s k m r s' :
    Reachable s -> JsMap.get k (models s) = Some m ->
    model_dispose m s = (r, s') -> Reachable s'
| reach_world s w :
    Reachable s -> Reachable (withWorld s w).

(** A pass started in [s] read the snapshot [roots] and reconciles it from
    [s0]. *)
Definition snapshot (s : Manager W) (roots : list FileStat) (s0 : Manager W)
  : Prop :=
  exists w1 w2,
    appStateService_reachedState_ready (world s) = (Ok tt, w1) /\
    workspaceService_roots w1 = (Ok roots, w2) /\
    s0 = withWorld s w2.

(** The [try] block fails with [e] for the file at [file], from world [w]:
    the read fails, or what was read does not parse. *)
Definition readFails (file : URI) (w : W) (e : JsError) (w' : W) : Prop :=
  fileService_read file w = (Throw e, w') \/
  (exists value, fileService_read file w = (Ok value, w') /\
                 JSON_parse value = Throw e) \/
  (exists value json, fileService_read file w = (Ok value, w') /\
                      JSON_parse value = Ok json /\
                      DebugConfigurationModel_parse json = Throw e).

(** The events of a resolution that reached the read. *)
Definition resolutionEvents (sk : Sketch) (folder : URI) : list Event :=
  [EvCurrentSketch; EvGetIdeTempFolderUri sk; EvCreateFolder folder;
   EvRead (uri_resolve folder launch_json)].

(** The runs of [getTempLaunchJsonContent] from [s], by what the services
    answer. *)
Inductive Resolution (s : Manager W)
  : Result (option TempContent) -> Manager W -> Prop :=
| res_sketch_throws e w1 :
    sketchesServiceClient_currentSketch (world s) = (Throw e, w1) ->
    Resolution s (Throw e) (after s w1 [EvCurrentSketch])
| res_invalid w1 :
    sketchesServiceClient_currentSketch (world s) = (Ok InvalidSketch, w1) ->
    Resolution s (Ok None) (after s w1 [EvCurrentSketch])
| res_folder_uri_throws sk w1 e w2 :
    sketchesServiceClient_currentSketch (world s) = (Ok (ValidSketch sk), w1) ->
    sketchesService_getIdeTempFolderUri sk w1 = (Throw e, w2) ->
    Resolution s (Throw e)
               (after s w2 [EvCurrentSketch; EvGetIdeTempFolderUri sk])
| res_create_throws sk w1 folder w2 e w3 :
    sketchesServiceClient_currentSketch (world s) = (Ok (ValidSketch sk), w1) ->
    sketchesService_getIdeTempFolderUri sk w1 = (Ok folder, w2) ->
    fileService_createFolder (new_URI folder) w2 = (Throw e, w3) ->
    Resolution s (Throw e)
               (after s w3 [EvCurrentSketch; EvGetIdeTempFolderUri sk;
                            EvCreateFolder (new_URI folder)])
| res_content sk w1 folder w2 w3 value w4 json cfgs :
    sketchesServiceClient_currentSketch (world s) = (Ok (ValidSketch sk), w1) ->
    sketchesService_getIdeTempFolderUri sk w1 = (Ok folder, w2) ->
    fileService_createFolder (new_URI folder) w2 = (Ok tt, w3) ->
    fileService_read (uri_resolve (new_URI folder) launch_json) w3 = (Ok value, w4) ->
    JSON_parse value = Ok json ->
    DebugConfigurationModel_parse json = Ok cfgs ->
    Resolution s
      (Ok (Some (Content
         (mkJsonContent (uri_resolve (new_URI folder) launch_json) cfgs []))))
      (after s w4 (resolutionEvents sk (new_URI folder)))
| res_missing sk w1 folder w2 w3 e w4 :
    sketchesServiceClient_currentSketch (world s) = (Ok (ValidSketch sk), w1) ->
    sketchesService_getIdeTempFolderUri sk w1 = (Ok folder, w2) ->
    fileService_createFolder (new_URI folder) w2 = (Ok tt, w3) ->
    readFails (uri_resolve (new_URI folder) launch_json) w3 e w4 ->
    isFileNotFound e = true ->
    Resolution s (Ok (Some (TempFolder (new_URI folder))))
               (after s w4 (resolutionEvents sk (new_URI folder)))
| res_failure sk w1 folder w2 w3 e w4 :
    sketchesServiceClient_currentSketch (world s) = (Ok (ValidSketch sk), w1) ->
    sketchesService_getIdeTempFolderUri sk w1 = (Ok folder, w2) ->
    fileService_createFolder (new_URI folder) w2 = (Ok tt, w3) ->
    readFails (uri_resolve (new_URI folder) launch_json) w3 e w4 ->
    isFileNotFound e = false ->
    Resolution s (Throw e)
               (after s w4 (resolutionEvents sk (new_URI folder)
                            ++ [EvConsoleError load_error_message e])).
(** The four ways one iteration of the loop over the roots can go. *)
Inductive Visit (k : string) (s : Manager W) : Result unit -> Manager W -> Prop :=
| visit_present :
    JsMap.has k (models s) = true -> Visit k s (Ok tt) s
| visit_undefined s1 :
    JsMap.has k (models s) = false ->
    getTempLaunchJsonContent s = (Ok None, s1) ->
    Visit k s (Ok tt) s1
| visit_created tc s1 :
    JsMap.has k (models s) = false ->
    getTempLaunchJsonContent s = (Ok (Some tc), s1) ->
    Visit k s (Ok tt)
          (withModels s1 (JsMap.set k (modelFor k tc) (models s1)))
| visit_throws e s1 :
    JsMap.has k (models s) = false ->
    getTempLaunchJsonContent s = (Throw e, s1) ->
    Visit k s (Throw e) s1.





End Vocabulary.

(** Statements of the specification as they are worded: C1, C2, C4, C6. *)



(** C2: every batch with a matching change triggers one re-read and fires
    one notification. *)
Definition watcher_claim_as_stated : Prop :=
  forall (W : Type) (S : Services W) (folderName : string)
         (event : FileChangesEvent) (s s' : Manager W) (r : Result unit),
    (exists ch, In ch (changes event) /\
                matchesTempLaunchJson folderName (change_resource ch)) ->
    onDidFilesChange_listener (toLowerCase folderName) event s = (r, s') ->
    exists evs, log s' = log s ++ evs /\
                count isCurrentSketch evs = 1 /\
                count isFireTempContent evs = 1.

(** C6: every failure of the folder creation, of the read or of the parse
    is logged once before it is raised. *)
Definition logging_claim_as_stated : Prop :=
  forall (W : Type) (S : Services W) (s s' : Manager W) (w1 w2 w3 : W)
         (sk : Sketch) (folder : string) (e : JsError),
    sketchesServiceClient_currentSketch (world s) = (Ok (ValidSketch sk), w1) ->
    sketchesService_getIdeTempFolderUri sk w1 = (Ok folder, w2) ->
    (fileService_createFolder (new_URI folder) w2 = (Throw e, w3) \/
     (exists w', fileService_createFolder (new_URI folder) w2 = (Ok tt, w') /\
                 readFails (uri_resolve (new_URI folder) launch_json) w' e w3 /\
                 isFileNotFound e = false)) ->
    getTempLaunchJsonContent s = (Throw e, s') ->
    exists evs, log s' = log s ++ evs /\ count isConsoleError evs = 1.

(** ** Concrete sessions *)

Module Scenario.
Import Sim.

Definition rootC : FileStat := mkFileStat (mkURI "file" ["home"; "user"; "Fade"]).

(** Two roots and an empty [launch.json]. *)
Definition twoRoots : World :=
  mkWorld (ValidSketch blink) [rootA; rootB]
          [(uri_toString tempLaunchJson, "{}")] [] false.
(** The first root is gone. *)
Definition onlyRootB : World :=
  mkWorld (ValidSketch blink) [rootB]
          [(uri_toString tempLaunchJson, "{}")] [uri_toString tempFolder] false.
(** A third root came, and [launch.json] does not parse any more. *)
Definition brokenThirdRoot : World :=
  mkWorld (ValidSketch blink) [rootB; rootC]
          [(uri_toString tempLaunchJson, "{ configurations: ")]
          [uri_toString tempFolder] false.

Definition afterFirstPass : Manager World :=
  snd (updateModels (start twoRoots)).
Definition rootRemoved : Manager World := withWorld afterFirstPass onlyRootB.
Definition afterSecondPass : Manager World := snd (updateModels rootRemoved).
Definition thirdRootAdded : Manager World :=
  withWorld afterFirstPass brokenThirdRoot.
Definition afterFailedPass : Manager World := snd (updateModels thirdRootAdded).

(** [brokenLaunchJson] once its temp folder is created. *)
Definition brokenWithFolder : World :=
  mkWorld (ValidSketch blink) [rootA; rootB]
          [(uri_toString tempLaunchJson, "{ configurations: ")]
          [uri_toString tempFolder] false.
Definition noLaunchJsonWithFolder : World :=
  mkWorld (ValidSketch blink) [rootA] [] [uri_toString tempFolder] false.
Definition emptyLaunchJsonWithFolder : World :=
  mkWorld (ValidSketch blink) [rootA]
          [(uri_toString tempLaunchJson, "{}")] [uri_toString tempFolder] false.

(** The state after the resolution that finds no [launch.json]. *)
Definition resolvedMissing : Manager World :=
  after (start noLaunchJson) noLaunchJsonWithFolder
        (resolutionEvents blink tempFolder).
(** The state after the resolution that finds the empty [launch.json]. *)
Definition resolvedEmpty : Manager World :=
  after (start emptyLaunchJson) emptyLaunchJsonWithFolder
        (resolutionEvents blink tempFolder).
Definition emptyContent : JsonContent := mkJsonContent tempLaunchJson [] [].

Definition syntaxError : JsError := SyntaxError "Unexpected token in JSON".
Definition permissionDenied : JsError :=
  FileOperationError "Unable to create folder" FILE_PERMISSION_DENIED.

(** The sketch was closed; the first root is gone and a third one came. *)
Definition sketchClosed : World :=
  mkWorld InvalidSketch [rootB; rootC]
          [(uri_toString tempLaunchJson, "{}")] [uri_toString tempFolder] false.
(** Every root is gone. *)
Definition noRoots : World :=
  mkWorld (ValidSketch blink) []
          [(uri_toString tempLaunchJson, "{}")] [uri_toString tempFolder] false.

(** The states of the sessions below, evaluated. *)
Definition twoModels : Manager World := Eval vm_compute in afterFirstPass.
Definition closedSketchPass : Manager World :=
  Eval vm_compute in withWorld afterFirstPass sketchClosed.
Definition rootsGone : Manager World :=
  Eval vm_compute in withWorld afterFirstPass noRoots.
Definition afterInit : Manager World :=
  Eval vm_compute in snd (doInit_ready (start emptyLaunchJson)).
Definition afterRejectedPass : Manager World :=
  Eval vm_compute in afterFailedPass.
Definition beforeRejectedPass : Manager World :=
  Eval vm_compute in thirdRootAdded.

(** The model the first pass registers for the first root. *)
Definition modelA : DebugConfigurationModel :=
  Eval vm_compute in registeredModel keyA [] (Some tempLaunchJson).

(** A batch of three changes, two of them of the temporary [launch.json],
    one seen through another path and in another case. *)
Definition launchJsonChanged : FileChangesEvent :=
  mkFileChangesEvent
    [mkFileChange (mkURI "file" ["home"; "user"; "Blink"; "Blink.ino"]);
     mkFileChange (mkURI "file" ["private"; "tmp"; "arduino-ide2-A0337D47";
                                  "launch.json"]);
     mkFileChange tempLaunchJson].

(** The temp folder's name as another source of changes spells it. *)
Definition upperCaseName : string := "arduino-ide2-A0337D47".

Definition sketchChanged : FileChangesEvent :=
  mkFileChangesEvent
    [mkFileChange (mkURI "file" ["home"; "user"; "Blink"; "Blink.ino"]);
     mkFileChange (mkURI "file" ["home"; "user"; "Blink"; "launch.json"])].
End Scenario.

(** ** A scripted world

    A world in which a sketch is always open and the answers of the
    successive reads of [launch.json] are laid down in advance: the file can
    appear, change or be half written between two reads. *)

Module Script.
Record World := mkWorld {
  roots : list FileStat;
  (** the answers of the next reads; after them the file is not found *)
  reads : list (Result string)
}.

Definition fileNotFound : JsError :=
  FileOperationError "Unable to read file" FILE_NOT_FOUND.

Definition read (u : URI) (w : World) : Result string * World :=
  match reads w with
  | [] => (Throw fileNotFound, w)
  | answer :: later => (answer, mkWorld (roots w) later)
  end.

Definition quote : string := String (ascii_of_nat 34) EmptyString.

Definition member (name value : string) : string :=
  (quote ++ name ++ quote ++ ":" ++ quote ++ value ++ quote)%string.

Definition entry (type name request : string) : string :=
  ("{" ++ member "type" type ++ "," ++ member "name" name ++ ","
       ++ member "request" request ++ "}")%string.

(** A [launch.json] with two configurations. *)
Definition launchDocument : string :=
  ("{" ++ quote ++ "configurations" ++ quote ++ ":["
       ++ entry "cortex-debug" "Debug" "launch" ++ ","
       ++ entry "cortex-debug" "Attach" "attach" ++ "]}")%string.

Definition launchValue : Json :=
  JObject
    [("configurations",
      JArray
        [JObject [("type", JString "cortex-debug"); ("name", JString "Debug");
                  ("request", JString "launch")];
         JObject [("type", JString "cortex-debug"); ("name", JString "Attach");
                  ("request", JString "attach")]])].

Definition debugConfiguration : DebugConfiguration :=
  mkDebugConfiguration "cortex-debug" "Debug" "launch".
Definition attachConfiguration : DebugConfiguration :=
  mkDebugConfiguration "cortex-debug" "Attach" "attach".

(** A parser for that document and the two empty ones. *)
Definition parseJson (value : string) : Result Json :=
  if String.eqb value launchDocument then Ok launchValue
  else Sim.parseJson value.

Definition stringMember (name : string) (members : list (string * Json)) : string :=
  match JsMap.get name members with
  | Some (JString v) => v
  | _ => EmptyString
  end.

Definition toConfiguration (j : Json) : list DebugConfiguration :=
  match j with
  | JObject members =>
      [mkDebugConfiguration (stringMember "type" members)
                            (stringMember "name" members)
                            (stringMember "request" members)]
  | _ => []
  end.

(** The [configurations] of a parsed document, in their order; none when
    the document has no such array. *)
Definition parseConfigurations (j : Json) : Result (list DebugConfiguration) :=
  match j with
  | JObject members =>
      match JsMap.get "configurations" members with
      | Some (JArray items) => Ok (flat_map toConfiguration items)
      | _ => Ok []
      end
  | _ => Ok []
  end.

#[global] Instance services : Services World := {|
  appStateService_reachedState_ready := fun w => (Ok tt, w);
  workspaceService_roots := fun w => (Ok (roots w), w);
  sketchesServiceClient_currentSketch := fun w => (Ok (ValidSketch Sim.blink), w);
  sketchesService_getIdeTempFolderUri := fun sk w => (Ok (Sim.tempFolderOf sk), w);
  fileService_createFolder := fun _ w => (Ok tt, w);
  fileService_read := read;
  fileService_watch := fun _ w => (Ok tt, w);
  new_URI := Sim.parseUri;
  JSON_parse := parseJson;
  DebugConfigurationModel_parse := parseConfigurations
|}.

Definition start (w : World) : Manager World := mkManager w [] [] [].


(** Two roots; [launch.json] has the two configurations at every read. *)
Definition twoRoots : World :=
  mkWorld [Sim.rootA; Sim.rootB]
          [Ok launchDocument; Ok launchDocument; Ok launchDocument].
(** One root and no [launch.json]. *)
Definition oneRootNoFile : World := mkWorld [Sim.rootA] [].
(** One root and the [launch.json] with two configurations. *)
Definition oneRootWithFile : World := mkWorld [Sim.rootA] [Ok launchDocument].



(** A pass over the one root with the file. *)
Definition afterOneRootWithFile : Manager World :=
  Eval vm_compute in snd (updateModels (start oneRootWithFile)).
End Script.

(** ** Facts about the map *)

Module JsMapFacts.
Import JsMap.

Section Facts.
Context {V : Type}.
Implicit Types (m : t V) (k : string) (v : V).

Lemma has_true_iff k m : has k m = true <-> In k (keys m).
Proof.
  unfold has. induction m as [|[k' v'] m IH]; simpl.
  - split; [discriminate | tauto].
  - destruct (String.eqb_spec k' k) as [->|Hne].
    + split; auto.
    + rewrite IH. split; [auto | intros [?|?]; [contradiction | assumption]].
Qed.

Lemma has_false_iff k m : has k m = false <-> ~ In k (keys m).
Proof.
  rewrite <- has_true_iff. destruct (has k m); intuition congruence.
Qed.

Lemma get_some_in k m v : get k m = Some v -> In k (keys m).
Proof.
  intros Hg. apply has_true_iff. unfold has. now rewrite Hg.
Qed.

Lemma in_get_some k m : In k (keys m) -> exists v, get k m = Some v.
Proof.
  intros Hin. apply has_true_iff in Hin. unfold has in Hin.
  destruct (get k m) as [v|]; [now exists v | discriminate].
Qed.

Lemma get_set_same k v m : get k (set k v m) = Some v.
Proof.
  induction m as [|[k' v'] m IH]; simpl.
  - now rewrite String.eqb_refl.
  - destruct (String.eqb_spec k' k) as [->|Hne]; simpl.
    + now rewrite String.eqb_refl.
    + destruct (String.eqb_spec k' k); [contradiction | exact IH].
Qed.

Lemma get_set_other k k' v m : k' <> k -> get k' (set k v m) = get k' m.
Proof.
  intros Hne. induction m as [|[k0 v0] m IH]; simpl.
  - destruct (String.eqb_spec k k'); [congruence | reflexivity].
  - destruct (String.eqb_spec k0 k) as [->|Hne0]; simpl.
    + destruct (String.eqb_spec k k'); [congruence | reflexivity].
    + destruct (String.eqb_spec k0 k'); [reflexivity | exact IH].
Qed.

Lemma keys_set_absent k v m : has k m = false -> keys (set k v m) = keys m ++ [k].
Proof.
  unfold has. induction m as [|[k' v'] m IH]; simpl; [reflexivity|].
  destruct (String.eqb_spec k' k) as [->|Hne]; [discriminate|].
  intros Hg. simpl. f_equal. now apply IH.
Qed.

Lemma keys_delete k m : keys (delete k m) = JsSet.delete k (keys m).
Proof.
  unfold delete, JsSet.delete, keys.
  induction m as [|[k' v'] m IH]; simpl; [reflexivity|].
  destruct (String.eqb k' k); simpl; now rewrite IH.
Qed.

Lemma in_set_delete k k' (l : list string) :
  In k (JsSet.delete k' l) <-> In k l /\ k <> k'.
Proof.
  unfold JsSet.delete. rewrite filter_In.
  destruct (String.eqb_spec k k') as [->|Hne]; simpl.
  - split; [intros [_ ?]; discriminate | tauto].
  - tauto.
Qed.

Lemma in_keys_delete k k' m :
  In k (keys (delete k' m)) <-> In k (keys m) /\ k <> k'.
Proof. rewrite keys_delete. apply in_set_delete. Qed.

Lemma get_delete_other k k' m : k' <> k -> get k' (delete k m) = get k' m.
Proof.
  intros Hne. unfold delete.
  induction m as [|[k0 v0] m IH]; simpl; [reflexivity|].
  destruct (String.eqb_spec k0 k) as [->|Hne0]; simpl.
  - destruct (String.eqb_spec k k'); [congruence | exact IH].
  - destruct (String.eqb_spec k0 k'); [reflexivity | exact IH].
Qed.

Lemma get_delete_same k m : get k (delete k m) = None.
Proof.
  destruct (get k (delete k m)) as [v|] eqn:Hg; [|reflexivity].
  apply get_some_in, in_keys_delete in Hg. tauto.
Qed.

Lemma NoDup_set_delete k (l : list string) : NoDup l -> NoDup (JsSet.delete k l).
Proof. apply NoDup_filter. Qed.

Lemma NoDup_keys_delete k m : NoDup (keys m) -> NoDup (keys (delete k m)).
Proof. rewrite keys_delete. apply NoDup_set_delete. Qed.

Lemma NoDup_keys_set_absent k v m :
  has k m = false -> NoDup (keys m) -> NoDup (keys (set k v m)).
Proof.
  intros Hh Hnd. rewrite keys_set_absent by assumption.
  apply NoDup_app; [assumption | repeat constructor; simpl; tauto |].
  intros x Hx [<-|[]]. now apply has_false_iff in Hh.
Qed.
End Facts.
End JsMapFacts.


(** ** The resolution of the temporary [launch.json] *)

Ltac run_monad :=
  unfold bind, ret, throw, try_catch, emit, call, lift, getModels, setModels,
         detached; simpl.

Ltac split5 := split; [|split; [|split; [|split]]].

Ltac flatten_log :=
  unfold after, withModels, resolutionEvents; simpl;
  repeat rewrite <- app_assoc; simpl.

Section ResolutionFacts.
Context {W : Type} `{Services W}.
Implicit Types (s : Manager W).

Lemma after_nil s : after s (world s) [] = s.
Proof. destruct s. unfold after. simpl. now rewrite app_nil_r. Qed.

(** Every run of [getTempLaunchJsonContent] is one of the listed ones. *)
Lemma getTempLaunchJsonContent_inv s r s' :
  getTempLaunchJsonContent s = (r, s') -> Resolution s r s'.
Proof.
  unfold getTempLaunchJsonContent, readLaunchJson. run_monad.
  destruct (sketchesServiceClient_currentSketch (world s))
    as [[[sk|]|e] w1] eqn:E1; simpl.
  2:{ intros [= <- <-]. now apply res_invalid. }
  2:{ intros [= <- <-]. now apply res_sketch_throws. }
  run_monad.
  destruct (sketchesService_getIdeTempFolderUri sk w1) as [[folder|e] w2] eqn:E2;
    simpl.
  2:{ intros [= <- <-].
      replace (mkManager _ _ _ _)
        with (after s w2 [EvCurrentSketch; EvGetIdeTempFolderUri sk])
        by (flatten_log; reflexivity).
      eapply res_folder_uri_throws; eassumption. }
  destruct (fileService_createFolder (new_URI folder) w2) as [[[]|e] w3] eqn:E3;
    simpl.
  2:{ intros [= <- <-].
      replace (mkManager _ _ _ _)
        with (after s w3 [EvCurrentSketch; EvGetIdeTempFolderUri sk;
                          EvCreateFolder (new_URI folder)])
        by (flatten_log; reflexivity).
      eapply res_create_throws; eassumption. }
  destruct (fileService_read (uri_resolve (new_URI folder) launch_json) w3)
    as [[value|e] w4] eqn:E4; simpl.
  - destruct (JSON_parse value) as [json|e] eqn:E5; simpl.
    + destruct (DebugConfigurationModel_parse json) as [cfgs|e] eqn:E6; simpl.
      * intros [= <- <-].
        replace (mkManager _ _ _ _)
          with (after s w4 (resolutionEvents sk (new_URI folder)))
          by (flatten_log; reflexivity).
        eapply res_content; eassumption.
      * assert (Hf : readFails (uri_resolve (new_URI folder) launch_json) w3 e w4)
          by (right; right; eauto).
        destruct (isFileNotFound e) eqn:En; simpl; intros [= <- <-].
        -- replace (mkManager _ _ _ _)
             with (after s w4 (resolutionEvents sk (new_URI folder)))
             by (flatten_log; reflexivity).
           eapply res_missing; eassumption.
        -- replace (mkManager _ _ _ _)
             with (after s w4 (resolutionEvents sk (new_URI folder)
                               ++ [EvConsoleError load_error_message e]))
             by (flatten_log; reflexivity).
           eapply res_failure; eassumption.
    + assert (Hf : readFails (uri_resolve (new_URI folder) launch_json) w3 e w4)
        by (right; left; eauto).
      destruct (isFileNotFound e) eqn:En; simpl; intros [= <- <-].
      * replace (mkManager _ _ _ _)
          with (after s w4 (resolutionEvents sk (new_URI folder)))
          by (flatten_log; reflexivity).
        eapply res_missing; eassumption.
      * replace (mkManager _ _ _ _)
          with (after s w4 (resolutionEvents sk (new_URI folder)
                            ++ [EvConsoleError load_error_message e]))
          by (flatten_log; reflexivity).
        eapply res_failure; eassumption.
  - assert (Hf : readFails (uri_resolve (new_URI folder) launch_json) w3 e w4)
      by (left; assumption).
    destruct (isFileNotFound e) eqn:En; simpl; intros [= <- <-].
    + replace (mkManager _ _ _ _)
        with (after s w4 (resolutionEvents sk (new_URI folder)))
        by (flatten_log; reflexivity).
      eapply res_missing; eassumption.
    + replace (mkManager _ _ _ _)
        with (after s w4 (resolutionEvents sk (new_URI folder)
                          ++ [EvConsoleError load_error_message e]))
        by (flatten_log; reflexivity).
      eapply res_failure; eassumption.
Qed.

Lemma readLaunchJson_fails folder s e w4 :
  readFails (uri_resolve folder launch_json) (world s) e w4 ->
  readLaunchJson folder s
  = (Throw e, after s w4 [EvRead (uri_resolve folder launch_json)]).
Proof.
  unfold readLaunchJson. run_monad.
  intros [E4|[(value & E4 & E5)|(value & json & E4 & E5 & E6)]];
    rewrite E4; simpl; try rewrite E5; simpl; try rewrite E6; reflexivity.
Qed.

(** Each listed run is a run of [getTempLaunchJsonContent]. *)
Lemma getTempLaunchJsonContent_run s r s' :
  Resolution s r s' -> getTempLaunchJsonContent s = (r, s').
Proof.
  intros [e w1 E1|w1 E1|sk w1 e w2 E1 E2|sk w1 folder w2 e w3 E1 E2 E3
          |sk w1 folder w2 w3 value w4 json cfgs E1 E2 E3 E4 E5 E6
          |sk w1 folder w2 w3 e w4 E1 E2 E3 Hf En
          |sk w1 folder w2 w3 e w4 E1 E2 E3 Hf En];
    unfold getTempLaunchJsonContent; run_monad; rewrite E1; simpl;
    try reflexivity; run_monad; rewrite E2; simpl;
    try (flatten_log; reflexivity); rewrite E3; simpl;
    try (flatten_log; reflexivity).
  - unfold readLaunchJson. run_monad. rewrite E4. simpl. rewrite E5. simpl.
    rewrite E6. simpl. flatten_log. reflexivity.
  - erewrite readLaunchJson_fails by exact Hf. simpl. rewrite En.
    flatten_log. reflexivity.
  - erewrite readLaunchJson_fails by exact Hf. simpl. rewrite En.
    flatten_log. reflexivity.
Qed.

(** A resolution changes the world and the log only, and logs nothing but
    its service calls and its own error report. *)
Lemma Resolution_frame s r s' :
  Resolution s r s' ->
  exists w evs, s' = after s w evs /\ forallb isResolution evs = true /\
                count isCurrentSketch evs = 1.
Proof.
  intros [e w1 E1|w1 E1|sk w1 e w2 E1 E2|sk w1 folder w2 e w3 E1 E2 E3
          |sk w1 folder w2 w3 value w4 json cfgs E1 E2 E3 E4 E5 E6
          |sk w1 folder w2 w3 e w4 E1 E2 E3 Hf En
          |sk w1 folder w2 w3 e w4 E1 E2 E3 Hf En];
    eexists; eexists; (split; [reflexivity|]); split; reflexivity.
Qed.


End ResolutionFacts.

Section ReadOperation.
Context {W : Type} `{Services W}.

(** C3.  When the current sketch is valid, its temp folder is resolved and
    created, and reading [launch.json] fails with a [FileOperationError]
    whose result is [FILE_NOT_FOUND], [getTempLaunchJsonContent] returns the
    temp folder's URI normally: nothing is thrown and nothing is reported
    with [console.error]. *)
Theorem getTempLaunchJsonContent_file_not_found
    (s : Manager W) sk w1 folder w2 w3 message w4 :
  sketchesServiceClient_currentSketch (world s) = (Ok (ValidSketch sk), w1) ->
  sketchesService_getIdeTempFolderUri sk w1 = (Ok folder, w2) ->
  fileService_createFolder (new_URI folder) w2 = (Ok tt, w3) ->
  fileService_read (uri_resolve (new_URI folder) launch_json) w3
  = (Throw (FileOperationError message FILE_NOT_FOUND), w4) ->
  getTempLaunchJsonContent s
  = (Ok (Some (TempFolder (new_URI folder))),
     after s w4 (resolutionEvents sk (new_URI folder)))
  /\ count isConsoleError (resolutionEvents sk (new_URI folder)) = 0.
Proof.
  intros E1 E2 E3 E4. split; [|reflexivity].
  apply getTempLaunchJsonContent_run.
  eapply res_missing with (e := FileOperationError message FILE_NOT_FOUND);
    [exact E1 | exact E2 | exact E3 | left; exact E4 | reflexivity].
Qed.

(** C6, as the code has it.  With a valid sketch and a resolved temp folder:
    a failure of the read or of the parse other than file-not-found is
    reported once with [console.error], as the last thing before it is
    raised again; a failure of the folder creation is raised to the caller
    without any report. *)
Theorem read_failure_logged_folder_failure_silent
    (s : Manager W) sk w1 folder w2 :
  sketchesServiceClient_currentSketch (world s) = (Ok (ValidSketch sk), w1) ->
  sketchesService_getIdeTempFolderUri sk w1 = (Ok folder, w2) ->
  (forall w3 e w4,
      fileService_createFolder (new_URI folder) w2 = (Ok tt, w3) ->
      readFails (uri_resolve (new_URI folder) launch_json) w3 e w4 ->
      isFileNotFound e = false ->
      let evs := resolutionEvents sk (new_URI folder)
                 ++ [EvConsoleError load_error_message e] in
      getTempLaunchJsonContent s = (Throw e, after s w4 evs) /\
      count isConsoleError evs = 1)
  /\
  (forall e w3,
      fileService_createFolder (new_URI folder) w2 = (Throw e, w3) ->
      let evs := [EvCurrentSketch; EvGetIdeTempFolderUri sk;
                  EvCreateFolder (new_URI folder)] in
      getTempLaunchJsonContent s = (Throw e, after s w3 evs) /\
      count isConsoleError evs = 0).
Proof.
  intros E1 E2. split.
  - intros w3 e w4 E3 Hf En evs. split; [|reflexivity].
    apply getTempLaunchJsonContent_run. eapply res_failure; eauto.
  - intros e w3 E3 evs. split; [|reflexivity].
    apply getTempLaunchJsonContent_run. eapply res_create_throws; eauto.
Qed.
End ReadOperation.

Lemma getTempLaunchJsonContent_file_not_found_witness :
  getTempLaunchJsonContent (Sim.start Sim.noLaunchJson)
  = (Ok (Some (TempFolder Sim.tempFolder)),
     after (Sim.start Sim.noLaunchJson)
           (Sim.mkWorld (ValidSketch Sim.blink) [Sim.rootA] []
                        [uri_toString Sim.tempFolder] false)
           (resolutionEvents Sim.blink Sim.tempFolder))
  /\ count isConsoleError (resolutionEvents Sim.blink Sim.tempFolder) = 0.
Proof.
  exact (getTempLaunchJsonContent_file_not_found
           (Sim.start Sim.noLaunchJson) (sk := Sim.blink)
           (w1 := Sim.noLaunchJson) (w2 := Sim.noLaunchJson)
           (folder := Sim.tempFolderOf Sim.blink)
           (w3 := Sim.mkWorld (ValidSketch Sim.blink) [Sim.rootA] []
                              [uri_toString Sim.tempFolder] false)
           (message := "Unable to read file")
           (w4 := Sim.mkWorld (ValidSketch Sim.blink) [Sim.rootA] []
                              [uri_toString Sim.tempFolder] false)
           eq_refl eq_refl eq_refl eq_refl).
Defined.

(** C6, as worded, fails: when the temp folder cannot be created the error
    reaches the caller and [console.error] is never called. *)
Lemma logging_claim_as_stated_fails : ~ logging_claim_as_stated.
Proof.
  intros Hc.
  destruct (Hc Sim.World Sim.services (Sim.start Sim.readOnlyTemp)
               (after (Sim.start Sim.readOnlyTemp) Sim.readOnlyTemp
                      [EvCurrentSketch; EvGetIdeTempFolderUri Sim.blink;
                       EvCreateFolder Sim.tempFolder])
               Sim.readOnlyTemp Sim.readOnlyTemp Sim.readOnlyTemp
               Sim.blink (Sim.tempFolderOf Sim.blink)
               (FileOperationError "Unable to create folder" FILE_PERMISSION_DENIED)
               eq_refl eq_refl (or_introl eq_refl) eq_refl)
    as (evs & Hlog & Hcount).
  simpl in Hlog. subst evs. discriminate Hcount.
Qed.


(** ** The reconciliation pass *)

Section PassFacts.
Context {W : Type} `{Services W}.
Implicit Types (s : Manager W) (k : string).
Import JsMap JsMapFacts.

Lemma updateModels_snapshot s roots s0 :
  snapshot s roots s0 -> updateModels s = reconcileRoots roots s0.
Proof.
  intros (w1 & w2 & E1 & E2 & ->). unfold updateModels. run_monad.
  rewrite E1. simpl. rewrite E2. reflexivity.
Qed.

Lemma updateModels_inv s r s' :
  updateModels s = (r, s') ->
  (exists roots s0, snapshot s roots s0 /\ reconcileRoots roots s0 = (r, s'))
  \/ (models s' = models s /\ exists e, r = Throw e).
Proof.
  unfold updateModels. run_monad.
  destruct (appStateService_reachedState_ready (world s)) as [[[]|e] w1] eqn:E1;
    simpl.
  2:{ intros [= <- <-]. right. eauto. }
  destruct (workspaceService_roots w1) as [[roots|e] w2] eqn:E2; simpl.
  2:{ intros [= <- <-]. right. eauto. }
  intros Hr. left. exists roots, (withWorld s w2). split; [|exact Hr].
  exists w1, w2. auto.
Qed.

Lemma registeredModel_eq k cfgs u :
  model_onDispose
    (model_onDidChange
       (new_DebugConfigurationModel k cfgs u OnTempContentDidChange)
       CbUpdateCurrent)
    (CbModelsDelete k)
  = registeredModel k cfgs u.
Proof. reflexivity. Qed.

Lemma visitRoot_inv k s r s' : visitRoot k s = (r, s') -> Visit k s r s'.
Proof.
  unfold visitRoot, createModel. run_monad.
  destruct (has k (models s)) eqn:Hh; simpl.
  - intros [= <- <-]. now constructor.
  - destruct (getTempLaunchJsonContent s) as [[[tc|]|e] s1] eqn:Eg; simpl.
    + intros [= <- <-].
      destruct tc as [u|c];
        [exact (visit_created k s (tc := TempFolder u) Hh Eg)
        |exact (visit_created k s (tc := Content c) Hh Eg)].
    + intros [= <- <-]. now apply visit_undefined.
    + intros [= <- <-]. now apply visit_throws.
Qed.

Lemma visitRoot_run k s r s' : Visit k s r s' -> visitRoot k s = (r, s').
Proof.
  intros [Hh|s1 Hh Eg|tc s1 Hh Eg|e s1 Hh Eg];
    unfold visitRoot, createModel; run_monad; rewrite Hh; simpl;
    try reflexivity; rewrite Eg; simpl; try reflexivity.
  destruct tc; reflexivity.
Qed.

Lemma getTemp_frame s r s1 :
  getTempLaunchJsonContent s = (r, s1) ->
  models s1 = models s /\ filesChangeListeners s1 = filesChangeListeners s /\
  exists evs, log s1 = log s ++ evs /\ forallb isResolution evs = true /\
              count isCurrentSketch evs = 1.
Proof.
  intros Eg. apply getTempLaunchJsonContent_inv, Resolution_frame in Eg.
  destruct Eg as (w & evs & -> & Hres & Hc). simpl. eauto 6.
Qed.

Lemma wf_models_set k tc (m : JsMap.t DebugConfigurationModel) :
  has k m = false -> wf_models m -> wf_models (set k (modelFor k tc) m).
Proof.
  intros Hh [Hnd Hm]. split.
  - now apply NoDup_keys_set_absent.
  - intros k' v. destruct (string_dec k' k) as [->|Hne].
    + rewrite get_set_same. intros [= <-]. destruct tc; split; reflexivity.
    + rewrite get_set_other by assumption. apply Hm.
Qed.

Lemma wf_models_delete k (m : JsMap.t DebugConfigurationModel) :
  wf_models m -> wf_models (delete k m).
Proof.
  intros [Hnd Hm]. split.
  - now apply NoDup_keys_delete.
  - intros k' v. destruct (string_dec k' k) as [->|Hne].
    + now rewrite get_delete_same.
    + rewrite get_delete_other by assumption. apply Hm.
Qed.

(** What every iteration keeps, however it ends. *)
Lemma Visit_frame k s r s' :
  Visit k s r s' ->
  (forall k', In k' (keys (models s)) ->
              get k' (models s') = get k' (models s)) /\
  (forall k', In k' (keys (models s')) ->
              In k' (keys (models s)) \/ k' = k) /\
  (wf_models (models s) -> wf_models (models s')) /\
  filesChangeListeners s' = filesChangeListeners s /\
  exists evs, log s' = log s ++ evs /\ forallb isResolution evs = true.
Proof.
  intros [Hh|s1 Hh Eg|tc s1 Hh Eg|e s1 Hh Eg].
  - split5; auto. exists []. now rewrite app_nil_r.
  - apply getTemp_frame in Eg. destruct Eg as (Hm & Hf & evs & Hl & Hr & _).
    rewrite Hm. split5; auto. eauto.
  - apply getTemp_frame in Eg. destruct Eg as (Hm & Hf & evs & Hl & Hr & _).
    simpl. rewrite Hm. split5.
    + intros k' Hin. apply get_set_other. intros ->.
      apply has_false_iff in Hh. contradiction.
    + intros k'. rewrite keys_set_absent by assumption.
      rewrite in_app_iff. simpl. intuition.
    + now apply wf_models_set.
    + assumption.
    + eauto.
  - apply getTemp_frame in Eg. destruct Eg as (Hm & Hf & evs & Hl & Hr & _).
    rewrite Hm. split5; auto. eauto.
Qed.

Lemma forRoots_cons r rest td s :
  forRoots (r :: rest) td s
  = match visitRoot (rootKey r) s with
    | (Ok _, s1) => forRoots rest (JsSet.delete (rootKey r) td) s1
    | (Throw e, s1) => (Throw e, s1)
    end.
Proof. reflexivity. Qed.

Lemma forRoots_app pre post td s :
  forRoots (pre ++ post) td s
  = match forRoots pre td s with
    | (Ok td1, s1) => forRoots post td1 s1
    | (Throw e, s1) => (Throw e, s1)
    end.
Proof.
  revert td s. induction pre as [|r pre IH]; intros td s; [reflexivity|].
  rewrite <- app_comm_cons, !forRoots_cons.
  destruct (visitRoot (rootKey r) s) as [[[]|e] s1]; [apply IH | reflexivity].
Qed.

(** What the loop over the roots keeps, however it ends. *)
Lemma forRoots_frame roots : forall td s r s',
  forRoots roots td s = (r, s') ->
  (forall k', In k' (keys (models s)) ->
              get k' (models s') = get k' (models s)) /\
  (forall k', In k' (keys (models s')) ->
              In k' (keys (models s)) \/ In k' (rootKeys roots)) /\
  (wf_models (models s) -> wf_models (models s')) /\
  filesChangeListeners s' = filesChangeListeners s /\
  exists evs, log s' = log s ++ evs /\ forallb isResolution evs = true.
Proof.
  induction roots as [|rt rest IH]; intros td s r s'.
  - simpl. intros [= <- <-]. split5; auto.
    exists []. now rewrite app_nil_r.
  - rewrite forRoots_cons.
    destruct (visitRoot (rootKey rt) s) as [[[]|e] s1] eqn:Ev;
      apply visitRoot_inv, Visit_frame in Ev;
      destruct Ev as (Hg & Hk & Hwf & Hf & evs & Hl & Hr).
    + intros Hrest. apply IH in Hrest.
      destruct Hrest as (Hg' & Hk' & Hwf' & Hf' & evs' & Hl' & Hr').
      split; [|split; [|split; [|split]]].
      * intros k' Hin. rewrite Hg'; [now apply Hg|].
        destruct (in_get_some _ _ Hin) as [v Hv].
        apply get_some_in with (v := v). now rewrite Hg.
      * intros k' Hin. simpl. destruct (Hk' _ Hin) as [Hin1|Hin1]; [|tauto].
        destruct (Hk _ Hin1) as [?| ->]; tauto.
      * auto.
      * congruence.
      * exists (evs ++ evs'). rewrite Hl', Hl, app_assoc. split; [reflexivity|].
        rewrite forallb_app, Hr, Hr'. reflexivity.
    + intros [= <- <-]. split; [|split; [|split; [|split]]]; auto.
      * intros k' Hin. simpl. destruct (Hk _ Hin) as [?| ->]; tauto.
      * eauto.
Qed.

Lemma in_stale roots (l : list string) k :
  In k (filter (fun k => negb (existsb (String.eqb k) (rootKeys roots))) l)
  <-> In k l /\ ~ In k (rootKeys roots).
Proof.
  rewrite filter_In, negb_true_iff.
  assert (Hx : existsb (String.eqb k) (rootKeys roots) = true
               <-> In k (rootKeys roots)).
  { rewrite existsb_exists. split.
    - intros (x & Hin & Heq). apply String.eqb_eq in Heq. now subst.
    - intros Hin. exists k. split; [assumption | apply String.eqb_refl]. }
  destruct (existsb (String.eqb k) (rootKeys roots)).
  - split; [intros [_ ?]; discriminate|]. intros [_ Hn]. exfalso. tauto.
  - split; [|tauto]. intros [? _]. split; [assumption|].
    intros Hin. apply Hx in Hin. discriminate.
Qed.

(** The set [toDelete] at the end of the loop: what was in it, less the
    keys of the roots. *)
Lemma forRoots_toDelete roots : forall td s td' s',
  forRoots roots td s = (Ok td', s') ->
  td' = filter (fun k => negb (existsb (String.eqb k) (rootKeys roots))) td.
Proof.
  induction roots as [|rt rest IH]; intros td s td' s'.
  - simpl. intros [= <- <-]. symmetry. apply forallb_filter_id.
    apply forallb_forall. reflexivity.
  - rewrite forRoots_cons.
    destruct (visitRoot (rootKey rt) s) as [[[]|e] s1]; [|discriminate].
    intros Hrest. apply IH in Hrest. subst td'.
    unfold JsSet.delete. clear. induction td as [|k td IHtd]; [reflexivity|].
    simpl. destruct (String.eqb k (rootKey rt)); simpl.
    + exact IHtd.
    + destruct (existsb (String.eqb k) (rootKeys rest)); simpl;
        [exact IHtd | now rewrite IHtd].
Qed.


Lemma run_callbacks_total cbs : forall s, exists s',
  run_callbacks cbs s = (Ok tt, s').
Proof.
  induction cbs as [|cb cbs IH]; intros s; simpl; [now eexists|].
  destruct cb; unfold run_callback, updateCurrent; run_monad; apply IH.
Qed.

(** The disposal loop never throws. *)
Lemma forToDelete_total l : forall s, exists s',
  forToDelete l s = (Ok tt, s').
Proof.
  induction l as [|uri l IH]; intros s; simpl; [now eexists|].
  run_monad. destruct (get uri (models s)) as [v|]; simpl; [|apply IH].
  unfold model_dispose. run_monad.
  destruct (run_callbacks_total (onDisposeListeners v)
              (mkManager (world s) (models s) (filesChangeListeners s)
                         (log s ++ [EvDispose (workspaceFolderUri v)])))
    as [s1 ->].
  apply IH.
Qed.

Lemma model_dispose_wf s uri v :
  wf_models (models s) -> get uri (models s) = Some v ->
  model_dispose v s
  = (Ok tt, mkManager (world s) (delete uri (models s))
                      (filesChangeListeners s) (log s ++ [EvDispose uri])).
Proof.
  intros [_ Hm] Hg. destruct (Hm _ _ Hg) as [Hk Hd].
  unfold model_dispose. rewrite Hk, Hd. reflexivity.
Qed.

(** The disposal loop on a well-formed map: every listed key that has a
    model is disposed once, in order, and leaves the map. *)
Lemma forToDelete_wf l : forall s,
  wf_models (models s) -> NoDup l ->
  exists s',
    forToDelete l s = (Ok tt, s') /\
    wf_models (models s') /\
    (forall k, In k (keys (models s')) <-> In k (keys (models s)) /\ ~ In k l) /\
    (forall k, ~ In k l -> get k (models s') = get k (models s)) /\
    log s' = log s ++ map EvDispose (filter (fun k => has k (models s)) l).
Proof.
  induction l as [|uri l IH]; intros s Hwf Hnd.
  - exists s. simpl. rewrite app_nil_r.
    split; [reflexivity|]. split; [assumption|]. split; [|split]; auto.
    intros k. tauto.
  - inversion Hnd as [|? ? Hnin Hnd']; subst.
    simpl. run_monad.
    destruct (get uri (models s)) as [v|] eqn:Hg; simpl.
    + assert (Hh : has uri (models s) = true) by (unfold has; now rewrite Hg).
      rewrite Hh. erewrite model_dispose_wf by eassumption.
      destruct (IH (mkManager (world s) (delete uri (models s))
                              (filesChangeListeners s)
                              (log s ++ [EvDispose uri])))
        as (s' & Hrun & Hwf' & Hk & Hget & Hlog);
        [now apply wf_models_delete | assumption |].
      exists s'. simpl in *. split; [exact Hrun|]. split; [exact Hwf'|].
      split; [|split].
      * intros k. rewrite Hk, in_keys_delete. intuition congruence.
      * intros k Hn. rewrite Hget by tauto. apply get_delete_other.
        intros ->. tauto.
      * rewrite Hlog, <- app_assoc. simpl. do 3 f_equal.
        apply filter_ext_in. intros k Hin. unfold has.
        rewrite get_delete_other; [reflexivity|]. intros ->. contradiction.
    + assert (Hh : has uri (models s) = false) by (unfold has; now rewrite Hg).
      rewrite Hh.
      destruct (IH s Hwf Hnd') as (s' & Hrun & Hwf' & Hk & Hget & Hlog).
      exists s'. split; [exact Hrun|]. split; [exact Hwf'|]. split; [|split].
      * intros k. rewrite Hk. split; [|tauto]. intros [Hin Hn].
        split; [assumption|]. intros [<-|?]; [|tauto].
        apply in_get_some in Hin. destruct Hin as [v Hv]. congruence.
      * intros k Hn. apply Hget. tauto.
      * exact Hlog.
Qed.

(** A pass either stops in the loop over the roots, or completes. *)
Lemma reconcileRoots_inv roots s0 r s' :
  reconcileRoots roots s0 = (r, s') ->
  (exists e, r = Throw e /\
             forRoots roots (keys (models s0)) s0 = (Throw e, s'))
  \/
  (exists td s1 s2,
      r = Ok tt /\
      forRoots roots (keys (models s0)) s0 = (Ok td, s1) /\
      forToDelete td s1 = (Ok tt, s2) /\
      s' = after s2 (world s2) [EvUpdateCurrent]).
Proof.
  unfold reconcileRoots, updateCurrent. run_monad.
  destruct (forRoots roots (keys (models s0)) s0) as [[td|e] s1] eqn:Ef.
  - destruct (forToDelete_total td s1) as [s2 Hd]. rewrite Hd.
    intros [= <- <-]. right. exists td, s1, s2. auto.
  - intros [= <- <-]. left. eauto.
Qed.

Lemma reconcileRoots_throw roots s0 e s' :
  forRoots roots (keys (models s0)) s0 = (Throw e, s') ->
  reconcileRoots roots s0 = (Throw e, s').
Proof.
  intros Ef. unfold reconcileRoots. run_monad. now rewrite Ef.
Qed.

Lemma reconcileRoots_wf roots s0 r s' :
  wf_models (models s0) -> reconcileRoots roots s0 = (r, s') ->
  wf_models (models s').
Proof.
  intros Hwf Hr.
  destruct (reconcileRoots_inv _ _ Hr)
    as [(e & -> & Ef)|(td & s1 & s2 & -> & Ef & Hd & ->)].
  - now apply (forRoots_frame _ _ _ Ef).
  - pose proof (forRoots_frame _ _ _ Ef) as (_ & _ & Hwf1 & _).
    pose proof (forRoots_toDelete _ _ _ Ef) as ->.
    assert (Hnd : NoDup (filter (fun k => negb (existsb (String.eqb k)
                                                        (rootKeys roots)))
                                (keys (models s0))))
      by apply NoDup_filter, Hwf.
    destruct (forToDelete_wf s1 (Hwf1 Hwf) Hnd) as (s2' & Hd' & Hwf2 & _).
    rewrite Hd in Hd'. injection Hd' as <-. exact Hwf2.
Qed.

Lemma rereadTempContent_run s r s1 :
  getTempLaunchJsonContent s = (r, s1) ->
  rereadTempContent s = (Ok tt, after s1 (world s1) (notification r)).
Proof.
  intros Eg. unfold rereadTempContent. run_monad. rewrite Eg.
  destruct r as [[[u|c]|]|e]; simpl; try reflexivity;
    now rewrite after_nil.
Qed.

Lemma forChanges_match name chs s :
  existsb (isTempLaunchJson name) (map change_resource chs) = true ->
  forChanges name chs s = rereadTempContent s.
Proof.
  induction chs as [|ch chs IH]; simpl; [discriminate|].
  destruct (isTempLaunchJson name (change_resource ch)); simpl; auto.
Qed.

Lemma forChanges_nomatch name chs s :
  existsb (isTempLaunchJson name) (map change_resource chs) = false ->
  forChanges name chs s = (Ok tt, s).
Proof.
  induction chs as [|ch chs IH]; simpl; [reflexivity|].
  destruct (isTempLaunchJson name (change_resource ch)); simpl;
    [discriminate | auto].
Qed.

Lemma listener_models name event s r s' :
  onDidFilesChange_listener name event s = (r, s') -> models s' = models s.
Proof.
  unfold onDidFilesChange_listener.
  destruct (existsb (isTempLaunchJson name) (map change_resource (changes event)))
    eqn:Hm.
  - rewrite forChanges_match by assumption.
    destruct (getTempLaunchJsonContent s) as [r1 s1] eqn:Eg.
    rewrite (rereadTempContent_run _ Eg). intros [= <- <-]. simpl.
    now apply getTemp_frame in Eg.
  - rewrite forChanges_nomatch by assumption. now intros [= <- <-].
Qed.

Lemma doInit_models s r s' :
  doInit_ready s = (r, s') -> models s' = models s.
Proof.
  unfold doInit_ready, addFilesChangeListener. run_monad.
  destruct (getTempLaunchJsonContent s) as [[[tc|]|e] s1] eqn:Eg;
    apply getTemp_frame in Eg; destruct Eg as (Hm & _); simpl.
  - destruct (fileService_watch _ (world s1)) as [[[]|e] w1]; simpl;
      intros [= <- <-]; exact Hm.
  - intros [= <- <-]; exact Hm.
  - intros [= <- <-]; exact Hm.
Qed.

Lemma keys_set_present {V} k (v : V) (m : JsMap.t V) :
  has k m = true -> keys (set k v m) = keys m.
Proof.
  unfold has. induction m as [|[k' v'] m IH]; simpl; [discriminate|].
  destruct (String.eqb_spec k' k) as [->|Hne]; simpl; [reflexivity|].
  intros Hg. f_equal. now apply IH.
Qed.

(** Setting the model of a key keeps the map well formed, whether or not the
    key had a model. *)
Lemma wf_models_set_any k tc (m : JsMap.t DebugConfigurationModel) :
  wf_models m -> wf_models (set k (modelFor k tc) m).
Proof.
  destruct (has k m) eqn:Hh; [|now apply wf_models_set].
  intros [Hnd Hm]. split.
  - now rewrite keys_set_present.
  - intros k' v. destruct (string_dec k' k) as [->|Hne].
    + rewrite get_set_same. intros [= <-]. destruct tc; split; reflexivity.
    + rewrite get_set_other by assumption. apply Hm.
Qed.

Lemma forToDelete_keeps_wf l : forall s r s',
  wf_models (models s) -> forToDelete l s = (r, s') -> wf_models (models s').
Proof.
  induction l as [|uri l IH]; intros s r s' Hwf; simpl.
  - now intros [= <- <-].
  - run_monad. destruct (get uri (models s)) as [v|] eqn:Hg; simpl.
    + erewrite model_dispose_wf by eassumption. simpl.
      apply IH. simpl. now apply wf_models_delete.
    + now apply IH.
Qed.

Lemma registerModel_run k tc s :
  registerModel k tc s
  = (Ok tt, withModels s (set k (modelFor k tc) (models s))).
Proof. destruct tc; reflexivity. Qed.

Lemma runLoop_keeps_wf roots rest : forall td s r s',
  wf_models (models s) -> runLoop roots rest td s = (r, s') ->
  wf_models (models s').
Proof.
  induction rest as [|rt rest IH]; intros td s r s' Hwf; simpl.
  - unfold updateCurrent. run_monad.
    destruct (forToDelete td s) as [[[]|e] s1] eqn:Hd; simpl;
      intros [= <- <-]; simpl; eapply forToDelete_keeps_wf; eassumption.
  - run_monad. destruct (has (uri_toString (resource rt)) (models s)); simpl.
    + now apply IH.
    + now intros [= <- <-].
Qed.

Lemma readLaunchJson_models f s r s' :
  try_catch (readLaunchJson f) (catchReadError f) s = (r, s') ->
  models s' = models s /\ filesChangeListeners s' = filesChangeListeners s.
Proof.
  unfold readLaunchJson, catchReadError. run_monad.
  destruct (fileService_read (uri_resolve f launch_json) (world s))
    as [[value|e] w4]; simpl.
  - destruct (JSON_parse value) as [json|e]; simpl.
    + destruct (DebugConfigurationModel_parse json) as [cfgs|e]; simpl.
      * now intros [= <- <-].
      * destruct (isFileNotFound e); simpl; now intros [= <- <-].
    + destruct (isFileNotFound e); simpl; now intros [= <- <-].
  - destruct (isFileNotFound e); simpl; now intros [= <- <-].
Qed.

Lemma resolveStep_models st s r s' :
  resolveStep st s = (r, s') ->
  models s' = models s /\ filesChangeListeners s' = filesChangeListeners s.
Proof.
  destruct st as [|sk|f|f]; unfold resolveStep.
  - run_monad.
    destruct (sketchesServiceClient_currentSketch (world s)) as [[[sk|]|e] w1];
      simpl; now intros [= <- <-].
  - run_monad.
    destruct (sketchesService_getIdeTempFolderUri sk (world s)) as [[u|e] w1];
      simpl; now intros [= <- <-].
  - run_monad.
    destruct (fileService_createFolder f (world s)) as [[[]|e] w1];
      simpl; now intros [= <- <-].
  - unfold bind, ret.
    destruct (try_catch (readLaunchJson f) (catchReadError f) s)
      as [[tc|e] s1] eqn:Et; apply readLaunchJson_models in Et;
      intros [= <- <-]; exact Et.
Qed.

(** A step of a pass, wherever the pass is suspended and whatever its local
    variables are, keeps the map well formed. *)
Lemma resume_keeps_wf p s p' s' :
  wf_models (models s) -> resume p s = (p', s') -> wf_models (models s').
Proof.
  intros Hwf. unfold resume.
  destruct (resumeBody p s) as [r s1] eqn:Hb.
  assert (Hwf1 : wf_models (models s1)).
  { destruct p as [| |roots key rest td st|snap res]; unfold resumeBody in Hb.
    - revert Hb. run_monad.
      destruct (appStateService_reachedState_ready (world s)) as [[[]|e] w1];
        simpl; now intros [= <- <-].
    - revert Hb. run_monad.
      destruct (workspaceService_roots (world s)) as [[roots|e] w1]; simpl.
      + intros Hb. eapply runLoop_keeps_wf; [|exact Hb]. exact Hwf.
      + now intros [= <- <-].
    - unfold bind in Hb.
      destruct (resolveStep st s) as [[[st'|otc]|e] sa] eqn:Est;
        apply resolveStep_models in Est; destruct Est as [Hm _].
      + unfold ret in Hb. injection Hb as <- <-. now rewrite Hm.
      + destruct otc as [tc|]; unfold afterResolve in Hb.
        * unfold bind in Hb. rewrite registerModel_run in Hb.
          eapply runLoop_keeps_wf; [|exact Hb]. simpl. rewrite Hm.
          now apply wf_models_set_any.
        * eapply runLoop_keeps_wf; [|exact Hb]. now rewrite Hm.
      + injection Hb as <- <-. now rewrite Hm.
    - unfold ret in Hb. injection Hb as <- <-. exact Hwf. }
  destruct r; now intros [= <- <-].
Qed.

(** In every state of a session the map is well formed. *)
Lemma Reachable_wf s : Reachable s -> wf_models (models s).
Proof.
  induction 1 as [w|s r s' _ IH Hu|s name event r s' _ IH Hl|s r s' _ IH Hd
                  |s p p' s' _ IH Hp|s k m r s' _ IH Hg Hd|s w _ IH].
  - split; [constructor | intros k v; discriminate].
  - destruct (updateModels_inv _ Hu)
      as [(roots & s0 & (w1 & w2 & _ & _ & ->) & Hr)|[Hm _]].
    + eapply reconcileRoots_wf; [|exact Hr]. exact IH.
    + now rewrite Hm.
  - now rewrite (listener_models _ _ _ Hl).
  - now rewrite (doInit_models _ Hd).
  - eapply resume_keeps_wf; eassumption.
  - erewrite model_dispose_wf in Hd by eassumption.
    injection Hd as _ <-. now apply wf_models_delete.
  - exact IH.
Qed.
End PassFacts.

(** ** A pass step by step and a pass as a whole *)

Section PassSteps.
Context {W : Type} `{Services W}.
Implicit Types (s : Manager W) (k : string).
Import JsMap JsMapFacts.












End PassSteps.

(** ** The map after a pass *)

Section Reconciliation.
Context {W : Type} `{Services W}.
Implicit Types (s : Manager W) (k : string).
Import JsMap JsMapFacts.




(** A completed pass, from a well-formed map. *)
Lemma reconcileRoots_complete roots s0 s' :
  wf_models (models s0) ->
  reconcileRoots roots s0 = (Ok tt, s') ->
  exists td s1,
    forRoots roots (keys (models s0)) s0 = (Ok td, s1) /\
    (forall k, In k (keys (models s')) <->
               In k (keys (models s1)) /\
               ~ In k (staleKeys roots (models s0))) /\
    (forall k, ~ In k (staleKeys roots (models s0)) ->
               get k (models s') = get k (models s1)) /\
    log s' = log s1 ++ map EvDispose (staleKeys roots (models s0))
                    ++ [EvUpdateCurrent].
Proof.
  intros Hwf Hr.
  destruct (reconcileRoots_inv _ _ Hr)
    as [(e & [=] & _)|(td & s1 & s2 & _ & Ef & Hd & ->)].
  pose proof (forRoots_frame _ _ _ Ef) as (Hg1 & _ & Hwf1 & _).
  pose proof (forRoots_toDelete _ _ _ Ef) as Htd.
  fold (staleKeys roots (models s0)) in Htd. subst td.
  assert (Hnd : NoDup (staleKeys roots (models s0)))
    by apply NoDup_filter, Hwf.
  destruct (forToDelete_wf s1 (Hwf1 Hwf) Hnd)
    as (s2' & Hd' & _ & Hk & Hget & Hlog).
  rewrite Hd in Hd'. injection Hd' as <-.
  exists (staleKeys roots (models s0)), s1. split; [exact Ef|].
  split; [exact Hk|]. split; [exact Hget|].
  simpl. rewrite Hlog, <- app_assoc. do 2 f_equal.
  f_equal. apply forallb_filter_id, forallb_forall. intros k Hin.
  apply in_stale in Hin. destruct Hin as [Hin _].
  destruct (in_get_some _ _ Hin) as [v Hv].
  unfold has. now rewrite Hg1, Hv.
Qed.






Lemma count_app p (a b : list Event) : count p (a ++ b) = count p a + count p b.
Proof. unfold count. now rewrite filter_app, length_app. Qed.

Lemma isResolution_counts evs :
  forallb isResolution evs = true ->
  count isDispose evs = 0 /\ count isUpdateCurrent evs = 0 /\
  count isFireTempContent evs = 0.
Proof.
  induction evs as [|e evs IH]; simpl; [auto|].
  intros Hf. apply andb_true_iff in Hf. destruct Hf as [He Hf].
  destruct (IH Hf) as (H1 & H2 & H3).
  destruct e; try discriminate He; unfold count in *; simpl; auto.
Qed.

Lemma in_rootKeys_middle pre r post :
  In (rootKey r) (rootKeys (pre ++ r :: post)).
Proof.
  unfold rootKeys. rewrite map_app. apply in_or_app. right. now left.
Qed.

(** A pass stops at the first root whose resolution throws: the state is
    the one the failed resolution left. *)
Lemma pass_stops_at_throw s roots s0 k s_i e s_e :
  snapshot s roots s0 ->
  visitedAbsent roots s0 k s_i ->
  getTempLaunchJsonContent s_i = (Throw e, s_e) ->
  updateModels s = (Throw e, s_e) /\
  models s_e = models s_i /\
  (forall k', In k' (keys (models s)) ->
              get k' (models s_e) = get k' (models s)) /\
  exists evs, log s_e = log s ++ evs /\ forallb isResolution evs = true.
Proof.
  intros Hsnap (pre & r & post & td_i & -> & <- & Hpre & Hh) Eg.
  rewrite (updateModels_snapshot Hsnap).
  destruct Hsnap as (w1 & w2 & _ & _ & ->).
  pose proof (forRoots_frame _ _ _ Hpre) as (Hg & _ & _ & _ & evs1 & Hl1 & Hr1).
  pose proof (getTemp_frame _ Eg) as (Hm & _ & evs2 & Hl2 & Hr2 & _).
  split; [|split; [exact Hm | split]].
  - apply reconcileRoots_throw.
    rewrite forRoots_app, Hpre, forRoots_cons.
    now rewrite (visitRoot_run (visit_throws _ _ Hh Eg)).
  - intros k' Hin. rewrite Hm. now apply Hg.
  - exists (evs1 ++ evs2). rewrite Hl2, Hl1, app_assoc. split; [reflexivity|].
    now rewrite forallb_app, Hr1, Hr2.
Qed.

Lemma reconcileRoots_run roots s0 td s1 s2 :
  forRoots roots (keys (models s0)) s0 = (Ok td, s1) ->
  forToDelete td s1 = (Ok tt, s2) ->
  reconcileRoots roots s0 = (Ok tt, after s2 (world s2) [EvUpdateCurrent]).
Proof.
  intros Ef Hd. unfold reconcileRoots, updateCurrent. run_monad.
  rewrite Ef, Hd. reflexivity.
Qed.



(** C5.  In a pass that reaches a root without a model while the current
    sketch is valid and its temp folder resolved and created, a failure of
    the read or of the parse other than file-not-found makes the pass end
    with that error, and no model is registered for the root. *)
Theorem unreadable_file_rejects_pass
    s roots s0 k s_i sk w1 folder w2 w3 e w4 :
  snapshot s roots s0 ->
  visitedAbsent roots s0 k s_i ->
  sketchesServiceClient_currentSketch (world s_i) = (Ok (ValidSketch sk), w1) ->
  sketchesService_getIdeTempFolderUri sk w1 = (Ok folder, w2) ->
  fileService_createFolder (new_URI folder) w2 = (Ok tt, w3) ->
  readFails (uri_resolve (new_URI folder) launch_json) w3 e w4 ->
  isFileNotFound e = false ->
  let s_e := after s_i w4 (resolutionEvents sk (new_URI folder)
                           ++ [EvConsoleError load_error_message e]) in
  updateModels s = (Throw e, s_e) /\
  get k (models s_e) = None /\
  models s_e = models s_i.
Proof.
  intros Hsnap Hvis E1 E2 E3 Hf En s_e.
  assert (Eg : getTempLaunchJsonContent s_i = (Throw e, s_e))
    by (apply getTempLaunchJsonContent_run; eapply res_failure; eassumption).
  destruct (pass_stops_at_throw Hsnap Hvis Eg) as (Hu & _).
  split; [exact Hu|]. split; [|reflexivity].
  destruct Hvis as (_ & _ & _ & _ & _ & _ & _ & Hh).
  unfold has in Hh. simpl. now destruct (get k (models s_i)).
Qed.

End Reconciliation.

(** ** The file-change listener and the service calls of a resolution *)

Section Watcher.
Context {W : Type} `{Services W}.
Implicit Types (s : Manager W) (k : string).
Import JsMap JsMapFacts.

Lemma isTempLaunchJson_iff folderName resource :
  isTempLaunchJson (toLowerCase folderName) resource = true
  <-> matchesTempLaunchJson folderName resource.
Proof.
  unfold isTempLaunchJson, matchesTempLaunchJson.
  now rewrite andb_true_iff, !String.eqb_eq.
Qed.

Lemma matching_change_iff folderName chs :
  existsb (isTempLaunchJson (toLowerCase folderName)) (map change_resource chs)
  = true
  <-> exists ch, In ch chs /\
                 matchesTempLaunchJson folderName (change_resource ch).
Proof.
  rewrite existsb_exists. split.
  - intros (u & Hin & Hm). apply in_map_iff in Hin.
    destruct Hin as (ch & <- & Hin). exists ch.
    split; [assumption | now apply isTempLaunchJson_iff].
  - intros (ch & Hin & Hm). exists (change_resource ch).
    split; [now apply in_map | now apply isTempLaunchJson_iff].
Qed.


Lemma existsb_eqb_in k (l : list string) :
  existsb (String.eqb k) l = true <-> In k l.
Proof.
  rewrite existsb_exists. split.
  - intros (x & Hin & Heq). apply String.eqb_eq in Heq. now subst.
  - intros Hin. exists k. split; [assumption | apply String.eqb_refl].
Qed.



Lemma count_map_dispose p (l : list string) :
  (forall k, p (EvDispose k) = false) -> count p (map EvDispose l) = 0.
Proof.
  intros Hp. unfold count. induction l as [|k l IH]; simpl; [reflexivity|].
  now rewrite Hp.
Qed.



Lemma path_base_resolve u name : path_base (uri_resolve u name) = name.
Proof. unfold path_base, uri_resolve. simpl. apply last_last. Qed.

Lemma uri_parent_resolve u name : uri_parent (uri_resolve u name) = u.
Proof.
  destruct u as [sch segs]. unfold uri_parent, uri_resolve. simpl.
  now rewrite removelast_last.
Qed.

(** Whatever a resolution returned, the name [doInit] keeps is the lower-case
    name of the temp folder. *)
Lemma tempFolderNameOf_resolution s tc s1 :
  getTempLaunchJsonContent s = (Ok (Some tc), s1) ->
  exists folder,
    tempFolderNameOf tc = toLowerCase (path_base folder) /\
    (tc = TempFolder folder \/
     exists c, tc = Content c /\ uri c = uri_resolve folder launch_json).
Proof.
  intros Eg. apply getTempLaunchJsonContent_inv in Eg.
  inversion Eg; subst; exists (new_URI folder); unfold tempFolderNameOf; simpl.
  - rewrite uri_parent_resolve. split; [reflexivity|]. right. eauto.
  - split; [reflexivity|]. now left.
Qed.

(** [doInit], once a content is resolved and the watch is set, installs one
    listener, for that name. *)
Lemma doInit_ready_installs s tc s1 w :
  getTempLaunchJsonContent s = (Ok (Some tc), s1) ->
  fileService_watch
    (match tc with TempFolder u => u | Content c => uri c end) (world s1)
  = (Ok tt, w) ->
  exists s', doInit_ready s = (Ok tt, s') /\
             filesChangeListeners s'
             = filesChangeListeners s ++ [tempFolderNameOf tc].
Proof.
  intros Eg Ew. unfold doInit_ready, addFilesChangeListener. run_monad.
  rewrite Eg. simpl. rewrite Ew. simpl. eexists. split; [reflexivity|].
  simpl. apply getTemp_frame in Eg. destruct Eg as (_ & -> & _). reflexivity.
Qed.

(** The listener [doInit] installs answers to a change of the very file the
    resolution read. *)
Lemma listener_matches_resolved_file s tc s1 folder :
  getTempLaunchJsonContent s = (Ok (Some tc), s1) ->
  tempFolderNameOf tc = toLowerCase (path_base folder) ->
  isTempLaunchJson (tempFolderNameOf tc) (uri_resolve folder launch_json) = true.
Proof.
  intros _ ->. apply isTempLaunchJson_iff. split.
  - apply path_base_resolve.
  - now rewrite uri_parent_resolve.
Qed.

(** C2, as the code has it.  For a listener installed for the temp folder
    [folderName]: a batch in which some change is of a [launch.json] whose
    parent folder is named [folderName] up to case triggers exactly one
    re-read, however many changes match, and one notification when the
    re-read yields a content, which the notification carries, and none
    otherwise; a batch without such a change triggers no re-read and no
    notification. *)
Theorem listener_rereads_once folderName event s r s1 :
  getTempLaunchJsonContent s = (r, s1) ->
  ((exists ch, In ch (changes event) /\
               matchesTempLaunchJson folderName (change_resource ch)) ->
   onDidFilesChange_listener (toLowerCase folderName) event s
   = (Ok tt, after s1 (world s1) (notification r)) /\
   exists evs,
     log s1 ++ notification r = log s ++ evs /\
     count isCurrentSketch evs = 1 /\
     count isFireTempContent evs
     = match r with Ok (Some (Content _)) => 1 | _ => 0 end /\
     forall c, r = Ok (Some (Content c)) -> In (EvFireTempContent c) evs)
  /\
  ((forall ch, In ch (changes event) ->
               ~ matchesTempLaunchJson folderName (change_resource ch)) ->
   onDidFilesChange_listener (toLowerCase folderName) event s = (Ok tt, s)).
Proof.
  intros Eg. split.
  - intros Hm. apply matching_change_iff in Hm.
    unfold onDidFilesChange_listener. rewrite forChanges_match by assumption.
    split; [now apply rereadTempContent_run|].
    destruct (getTemp_frame _ Eg) as (_ & _ & evs & Hl & Hr & Hc).
    destruct (isResolution_counts _ Hr) as (_ & _ & Hf).
    exists (evs ++ notification r). rewrite Hl, <- app_assoc.
    split; [reflexivity|]. rewrite !count_app, Hc, Hf.
    split; [|split].
    + destruct r as [[[u|c]|]|e]; reflexivity.
    + destruct r as [[[u|c]|]|e]; reflexivity.
    + intros c ->. apply in_or_app. right. now left.
  - intros Hn. unfold onDidFilesChange_listener.
    apply forChanges_nomatch.
    destruct (existsb (isTempLaunchJson (toLowerCase folderName))
                      (map change_resource (changes event))) eqn:Ex;
      [|reflexivity].
    apply matching_change_iff in Ex. destruct Ex as (ch & Hin & Hm).
    exfalso. exact (Hn ch Hin Hm).
Qed.

End Watcher.


(** ** The theorems on concrete sessions *)

Section Witnesses.
Import Sim Scenario.

Lemma read_failure_logged_folder_failure_silent_witness :
  (getTempLaunchJsonContent (start brokenLaunchJson)
   = (Throw syntaxError,
      after (start brokenLaunchJson) brokenWithFolder
            (resolutionEvents blink tempFolder
             ++ [EvConsoleError load_error_message syntaxError])) /\
   count isConsoleError
         (resolutionEvents blink tempFolder
          ++ [EvConsoleError load_error_message syntaxError]) = 1)
  /\
  (getTempLaunchJsonContent (start readOnlyTemp)
   = (Throw permissionDenied,
      after (start readOnlyTemp) readOnlyTemp
            [EvCurrentSketch; EvGetIdeTempFolderUri blink;
             EvCreateFolder tempFolder]) /\
   count isConsoleError
         [EvCurrentSketch; EvGetIdeTempFolderUri blink;
          EvCreateFolder tempFolder] = 0).
Proof.
  split.
  - refine (proj1 (read_failure_logged_folder_failure_silent
                     (start brokenLaunchJson) (sk := blink)
                     (w1 := brokenLaunchJson) (w2 := brokenLaunchJson)
                     (folder := tempFolderOf blink) eq_refl eq_refl)
                  brokenWithFolder syntaxError brokenWithFolder eq_refl _ eq_refl).
    right. left. exists "{ configurations: ". split; reflexivity.
  - exact (proj2 (read_failure_logged_folder_failure_silent
                    (start readOnlyTemp) (sk := blink)
                    (w1 := readOnlyTemp) (w2 := readOnlyTemp)
                    (folder := tempFolderOf blink) eq_refl eq_refl)
                 permissionDenied readOnlyTemp eq_refl).
Defined.

Lemma reachable_rootRemoved : Reachable rootRemoved.
Proof.
  unfold rootRemoved. apply reach_world.
  refine (reach_updateModels (r := Ok tt) (reach_start twoRoots) _).
  vm_compute. reflexivity.
Defined.

Lemma snapshot_start (w : World) : snapshot (start w) (roots w) (start w).
Proof. exists w, w. repeat split. Defined.

Lemma snapshot_script_start (w : Script.World) :
  snapshot (Script.start w) (Script.roots w) (Script.start w).
Proof. exists w, w. repeat split. Defined.

Lemma visitedAbsent_script_first (w : Script.World) (r : FileStat)
    (post : list FileStat) :
  Script.roots w = r :: post ->
  visitedAbsent (Script.roots w) (Script.start w) (rootKey r) (Script.start w).
Proof.
  intros Hr. exists [], r, post, []. rewrite Hr. repeat split.
Defined.





Lemma visitedAbsent_first (w : World) (r : FileStat) (post : list FileStat) :
  roots w = r :: post -> visitedAbsent (roots w) (start w) (rootKey r) (start w).
Proof.
  intros Hr. exists [], r, post, []. rewrite Hr. repeat split.
Defined.

Lemma unreadable_file_rejects_pass_witness :
  let s_e := after (start brokenLaunchJson) brokenWithFolder
                   (resolutionEvents blink tempFolder
                    ++ [EvConsoleError load_error_message syntaxError]) in
  updateModels (start brokenLaunchJson) = (Throw syntaxError, s_e) /\
  JsMap.get keyA (models s_e) = None /\
  models s_e = models (start brokenLaunchJson).
Proof.
  refine (@unreadable_file_rejects_pass _ _
            (start brokenLaunchJson) [rootA; rootB] (start brokenLaunchJson)
            keyA (start brokenLaunchJson) blink brokenLaunchJson
            (tempFolderOf blink) brokenLaunchJson brokenWithFolder
            syntaxError brokenWithFolder
            (snapshot_start brokenLaunchJson)
            (@visitedAbsent_first brokenLaunchJson rootA [rootB] eq_refl)
            eq_refl eq_refl eq_refl _ eq_refl).
  right. left. exists "{ configurations: ". split; reflexivity.
Defined.




Lemma listener_rereads_once_witness :
  (onDidFilesChange_listener (toLowerCase upperCaseName) launchJsonChanged
                             (start emptyLaunchJson)
   = (Ok tt, after resolvedEmpty (world resolvedEmpty)
                   [EvFireTempContent emptyContent]) /\
   exists evs,
     log resolvedEmpty ++ [EvFireTempContent emptyContent]
     = log (start emptyLaunchJson) ++ evs /\
     count isCurrentSketch evs = 1 /\
     count isFireTempContent evs = 1 /\
     forall c, Ok (Some (Content emptyContent)) = Ok (Some (Content c)) ->
               In (EvFireTempContent c) evs)
  /\
  onDidFilesChange_listener (toLowerCase upperCaseName) sketchChanged
                            (start emptyLaunchJson)
  = (Ok tt, start emptyLaunchJson).
Proof.
  split.
  - refine (proj1 (@listener_rereads_once _ _ upperCaseName launchJsonChanged
                     (start emptyLaunchJson)
                     (Ok (Some (Content emptyContent))) resolvedEmpty _) _).
    + vm_compute. reflexivity.
    + exists (mkFileChange tempLaunchJson).
      split; [simpl; tauto | split; reflexivity].
  - refine (proj2 (@listener_rereads_once _ _ upperCaseName sketchChanged
                     (start emptyLaunchJson)
                     (Ok (Some (Content emptyContent))) resolvedEmpty _) _).
    + vm_compute. reflexivity.
    + intros ch [<-|[<-|[]]] [Hb Hp]; discriminate.
Defined.



(** C2, as worded, fails: when the changed [launch.json] has been deleted,
    the re-read finds no file and no notification is fired. *)
Lemma watcher_claim_as_stated_fails : ~ watcher_claim_as_stated.
Proof.
  intros Hc.
  destruct (Hc World services "arduino-ide2-a0337d47" launchJsonChanged
               (start noLaunchJson) resolvedMissing (Ok tt))
    as (evs & Hlog & _ & Hfire).
  - exists (mkFileChange tempLaunchJson).
    split; [simpl; tauto | split; reflexivity].
  - vm_compute. reflexivity.
  - simpl in Hlog. subst evs. discriminate Hfire.
Qed.
End Witnesses.

(** ** Further properties of the resolution *)

Section ResolutionProperties.
Context {W : Type} `{Services W}.
Implicit Types (s : Manager W) (k : string).
Import JsMap JsMapFacts.

(** X2.  Whatever [getTempLaunchJsonContent] returns when it returns a
    value lies in the temp folder whose creation it asked for: the folder's
    own URI, or a content whose URI is [launch.json] resolved in that folder
    and whose compounds are empty.  Such a run made one folder creation and
    one read, and reported nothing with [console.error]. *)
Theorem resolved_content_shape s tc s' :
  getTempLaunchJsonContent s = (Ok (Some tc), s') ->
  exists sk folder w,
    s' = after s w (resolutionEvents sk folder) /\
    (tc = TempFolder folder \/
     exists cfgs,
       tc = Content (mkJsonContent (uri_resolve folder launch_json) cfgs [])) /\
    count isCreateFolder (resolutionEvents sk folder) = 1 /\
    count isRead (resolutionEvents sk folder) = 1 /\
    count isConsoleError (resolutionEvents sk folder) = 0.
Proof.
  intros Eg. apply getTempLaunchJsonContent_inv in Eg.
  inversion Eg; subst.
  - exists sk, (new_URI folder), w4. split; [reflexivity|].
    split; [right; eauto|]. repeat split.
  - exists sk, (new_URI folder), w4. split; [reflexivity|].
    split; [now left|]. repeat split.
Qed.

(** X3.  A call of [getTempLaunchJsonContent], however it ends, leaves the
    model map and the installed listeners alone; it fires no notification,
    disposes nothing and does not call [updateCurrent].  It calls
    [console.error] at most once, and only when it throws. *)
Theorem resolution_touches_only_world_and_log s r s' :
  getTempLaunchJsonContent s = (r, s') ->
  models s' = models s /\
  filesChangeListeners s' = filesChangeListeners s /\
  exists evs,
    log s' = log s ++ evs /\
    count isFireTempContent evs = 0 /\
    count isDispose evs = 0 /\
    count isUpdateCurrent evs = 0 /\
    count isConsoleError evs <= 1 /\
    (forall a, r = Ok a -> count isConsoleError evs = 0).
Proof.
  intros Eg. apply getTempLaunchJsonContent_inv in Eg.
  inversion Eg; subst; (split; [reflexivity|]); (split; [reflexivity|]);
    eexists; (split; [reflexivity|]); cbn;
    repeat split; auto; intros a Ha; discriminate Ha.
Qed.
End ResolutionProperties.
(** ** Further properties of the pass *)

Section PassProperties.
Context {W : Type} `{Services W}.
Implicit Types (s : Manager W) (k : string).
Import JsMap JsMapFacts.

Lemma snapshot_state s roots s0 :
  snapshot s roots s0 ->
  models s0 = models s /\ log s0 = log s /\
  filesChangeListeners s0 = filesChangeListeners s.
Proof. intros (w1 & w2 & _ & _ & ->). repeat split. Qed.

Lemma nil_of_no_member {A} (l : list A) : (forall x, ~ In x l) -> l = [].
Proof.
  destruct l as [|a l]; [reflexivity|]. intros Hn. exfalso.
  apply (Hn a). now left.
Qed.

Lemma only_sketch_counts evs :
  forallb isCurrentSketch evs = true ->
  count isCreateFolder evs = 0 /\ count isRead evs = 0 /\
  count isConsoleError evs = 0 /\ forallb isResolution evs = true.
Proof.
  induction evs as [|e evs IH]; simpl; [auto|].
  intros Hf. apply andb_true_iff in Hf. destruct Hf as [He Hf].
  destruct (IH Hf) as (H1 & H2 & H3 & H4).
  destruct e; try discriminate He; unfold count in *; simpl; auto.
Qed.

(** The loop over the roots while no sketch is valid: it completes, asks for
    the current sketch and nothing else, and leaves the map as it is. *)
Lemma forRoots_no_sketch roots : forall td s,
  (forall pre r post td_i s_i,
      roots = pre ++ r :: post ->
      forRoots pre td s = (Ok td_i, s_i) ->
      has (rootKey r) (models s_i) = false ->
      exists w1,
        sketchesServiceClient_currentSketch (world s_i) = (Ok InvalidSketch, w1)) ->
  exists td' s' evs,
    forRoots roots td s = (Ok td', s') /\
    models s' = models s /\
    log s' = log s ++ evs /\ forallb isCurrentSketch evs = true.
Proof.
  induction roots as [|rt rest IH]; intros td s Hinv.
  - exists td, s, []. simpl. rewrite app_nil_r. auto.
  - rewrite forRoots_cons.
    assert (Hv : exists s1 evs1,
               visitRoot (rootKey rt) s = (Ok tt, s1) /\
               models s1 = models s /\
               log s1 = log s ++ evs1 /\ forallb isCurrentSketch evs1 = true).
    { destruct (has (rootKey rt) (models s)) eqn:Hh.
      - exists s, []. rewrite app_nil_r.
        split; [apply visitRoot_run; now constructor | auto].
      - destruct (Hinv [] rt rest td s eq_refl eq_refl Hh) as [w1 E1].
        exists (after s w1 [EvCurrentSketch]), [EvCurrentSketch].
        split; [|auto]. apply visitRoot_run. apply visit_undefined; [exact Hh|].
        apply getTempLaunchJsonContent_run. now apply res_invalid. }
    destruct Hv as (s1 & evs1 & Hv & Hm1 & Hl1 & Hr1). rewrite Hv.
    destruct (IH (JsSet.delete (rootKey rt) td) s1) as (td' & s' & evs & Ef & Hm & Hl & Hr).
    { intros pre r post td_i s_i -> Hpre Hh.
      apply (Hinv (rt :: pre) r post td_i s_i); [reflexivity| |exact Hh].
      now rewrite forRoots_cons, Hv. }
    exists td', s', (evs1 ++ evs). split; [exact Ef|].
    split; [congruence|]. rewrite Hl, Hl1, app_assoc. split; [reflexivity|].
    now rewrite forallb_app, Hr1, Hr.
Qed.

(** X1.  A pass of a session that finds no valid sketch at any root
    without a model completes without calling the file service: no folder is
    created, nothing is read or reported.  It creates no model: the map keeps
    exactly the models whose keys are roots of the snapshot, unchanged. *)
Theorem pass_without_sketch_keeps_only_known_roots s roots s0 :
  Reachable s ->
  snapshot s roots s0 ->
  (forall k s_i, visitedAbsent roots s0 k s_i ->
     exists w1,
       sketchesServiceClient_currentSketch (world s_i) = (Ok InvalidSketch, w1)) ->
  exists s',
    updateModels s = (Ok tt, s') /\
    (forall k, In k (keys (models s')) <->
               In k (keys (models s)) /\ In k (rootKeys roots)) /\
    (forall k, In k (rootKeys roots) ->
               get k (models s') = get k (models s)) /\
    exists evs,
      log s' = log s ++ evs /\
      count isCreateFolder evs = 0 /\ count isRead evs = 0 /\
      count isConsoleError evs = 0.
Proof.
  intros Hreach Hsnap Hinv. apply Reachable_wf in Hreach.
  rewrite (updateModels_snapshot Hsnap).
  destruct (snapshot_state Hsnap) as (Hm0 & Hl0 & _).
  rewrite <- Hm0 in *. rewrite <- Hl0.
  destruct (@forRoots_no_sketch roots (keys (models s0)) s0)
    as (td & s1 & evs1 & Ef & Hm1 & Hl1 & Hr1).
  { intros pre r post td_i s_i Hroots Hpre Hh.
    apply (Hinv (rootKey r) s_i). exists pre, r, post, td_i. auto. }
  pose proof (forRoots_toDelete _ _ _ Ef) as Htd.
  assert (Hwf1 : wf_models (models s1)) by now rewrite Hm1.
  assert (Hnd : NoDup td) by (subst td; apply NoDup_filter, Hreach).
  destruct (forToDelete_wf s1 Hwf1 Hnd) as (s2 & Hd & _ & Hk & Hget & Hlog).
  exists (after s2 (world s2) [EvUpdateCurrent]).
  split; [now apply reconcileRoots_run with (td := td) (s1 := s1)|].
  simpl. rewrite Hm1 in Hk, Hget, Hlog.
  assert (Hstale : forall k, In k td <->
                             In k (keys (models s0)) /\ ~ In k (rootKeys roots))
    by (intros k; subst td; apply in_stale).
  split; [|split].
  - intros k. rewrite Hk, Hstale.
    destruct (in_dec string_dec k (rootKeys roots)); tauto.
  - intros k Hroot. apply Hget. rewrite Hstale. tauto.
  - exists (evs1 ++ map EvDispose (filter (fun k => has k (models s0)) td)
                 ++ [EvUpdateCurrent]).
    rewrite Hlog, Hl1, <- !app_assoc. split; [reflexivity|].
    destruct (only_sketch_counts _ Hr1) as (H1 & H2 & H3 & _).
    rewrite !count_app, !count_map_dispose, H1, H2, H3 by reflexivity.
    repeat split.
Qed.

(** A model registered during a pass is in the map when the pass ends,
    however the pass ends. *)
Lemma registered_model_kept roots s0 k s_i tc s_j res s' :
  wf_models (models s0) ->
  visitedAbsent roots s0 k s_i ->
  getTempLaunchJsonContent s_i = (Ok (Some tc), s_j) ->
  reconcileRoots roots s0 = (res, s') ->
  get k (models s') = Some (modelFor k tc).
Proof.
  intros Hwf0 (pre & r & post & td_i & -> & <- & Hpre & Hh) Eg Hu.
  set (k := rootKey r) in *.
  set (s_reg := withModels s_j (set k (modelFor k tc) (models s_j))).
  assert (Hv : visitRoot k s_i = (Ok tt, s_reg))
    by exact (visitRoot_run (visit_created _ _ Hh Eg)).
  assert (Hreg : get k (models s_reg) = Some (modelFor k tc))
    by apply get_set_same.
  assert (Hloop : forRoots (pre ++ r :: post) (keys (models s0)) s0
                  = forRoots post (JsSet.delete k td_i) s_reg).
  { rewrite forRoots_app, Hpre, forRoots_cons. fold k. now rewrite Hv. }
  destruct (forRoots post (JsSet.delete k td_i) s_reg) as [rF sF] eqn:EF.
  pose proof (forRoots_frame _ _ _ EF) as (HgF & _).
  assert (HkF : get k (models sF) = Some (modelFor k tc)).
  { rewrite HgF; [exact Hreg|]. now apply get_some_in with (v := modelFor k tc). }
  destruct res as [[]|e].
  - destruct (reconcileRoots_complete _ s0 Hwf0 Hu)
      as (td & s1 & Ef & _ & Hget & _).
    rewrite Hloop in Ef. injection Ef as -> ->.
    rewrite Hget; [exact HkF|].
    unfold staleKeys. rewrite in_stale. intros [_ Hn]. apply Hn.
    apply in_rootKeys_middle.
  - destruct (reconcileRoots_inv _ _ Hu)
      as [(e' & [= <-] & Ef)|(? & ? & ? & [=] & _)].
    rewrite Hloop in Ef. injection Ef as -> ->. exact HkF.
Qed.

(** X4.  In a pass of a session that reaches a root without a model, when
    the sketch is valid, its temp folder resolved and created, and
    [launch.json] is read and parsed, the model registered for the root has
    the parsed configurations, in their order, and the URI of the file that
    was read; it is in the map when the pass ends, whether or not a later
    root makes the pass fail. *)
Theorem parsed_file_seeds_model
    s roots s0 k s_i sk w1 folder w2 w3 value w4 json cfgs :
  Reachable s ->
  snapshot s roots s0 ->
  visitedAbsent roots s0 k s_i ->
  sketchesServiceClient_currentSketch (world s_i) = (Ok (ValidSketch sk), w1) ->
  sketchesService_getIdeTempFolderUri sk w1 = (Ok folder, w2) ->
  fileService_createFolder (new_URI folder) w2 = (Ok tt, w3) ->
  fileService_read (uri_resolve (new_URI folder) launch_json) w3 = (Ok value, w4) ->
  JSON_parse value = Ok json ->
  DebugConfigurationModel_parse json = Ok cfgs ->
  forall res s',
    updateModels s = (res, s') ->
    exists m,
      get k (models s') = Some m /\
      workspaceFolderUri m = k /\
      config m = cfgs /\
      configUri m = Some (uri_resolve (new_URI folder) launch_json).
Proof.
  intros Hreach Hsnap Hvis E1 E2 E3 E4 E5 E6 res s' Hu.
  apply Reachable_wf in Hreach.
  rewrite (updateModels_snapshot Hsnap) in Hu.
  destruct (snapshot_state Hsnap) as (Hm0 & _). rewrite <- Hm0 in Hreach.
  assert (Eg : getTempLaunchJsonContent s_i
               = (Ok (Some (Content (mkJsonContent
                                       (uri_resolve (new_URI folder) launch_json)
                                       cfgs []))),
                  after s_i w4 (resolutionEvents sk (new_URI folder))))
    by (apply getTempLaunchJsonContent_run; eapply res_content; eassumption).
  rewrite (registered_model_kept Hreach Hvis Eg Hu).
  eexists. split; [reflexivity|]. repeat split.
Qed.

(** X5.  A pass of a session whose snapshot has no root disposes every
    model, in the order of the map, leaves the map empty, and calls
    [updateCurrent]; it makes no resolution. *)
Theorem empty_snapshot_disposes_all s s0 :
  Reachable s ->
  snapshot s [] s0 ->
  exists s',
    updateModels s = (Ok tt, s') /\
    models s' = [] /\
    log s' = log s ++ map EvDispose (keys (models s)) ++ [EvUpdateCurrent].
Proof.
  intros Hreach Hsnap. apply Reachable_wf in Hreach.
  rewrite (updateModels_snapshot Hsnap).
  destruct (snapshot_state Hsnap) as (Hm0 & Hl0 & _).
  rewrite <- Hm0 in *. rewrite <- Hl0.
  destruct (forToDelete_wf s0 Hreach (proj1 Hreach))
    as (s2 & Hd & _ & Hk & _ & Hlog).
  exists (after s2 (world s2) [EvUpdateCurrent]).
  split; [now apply reconcileRoots_run with (td := keys (models s0)) (s1 := s0)|].
  simpl. split.
  - assert (Hnil : keys (models s2) = [])
      by (apply nil_of_no_member; intros k Hin; apply Hk in Hin; tauto).
    destruct (models s2); [reflexivity | discriminate Hnil].
  - rewrite Hlog, <- app_assoc. do 3 f_equal.
    apply forallb_filter_id, forallb_forall. intros k Hin.
    now apply has_true_iff.
Qed.

Lemma forRoots_all_present roots : forall td s,
  (forall r, In r roots -> has (rootKey r) (models s) = true) ->
  exists td', forRoots roots td s = (Ok td', s).
Proof.
  induction roots as [|rt rest IH]; intros td s Hall; [now exists td|].
  rewrite forRoots_cons.
  rewrite (visitRoot_run (visit_present _ _ (Hall rt (or_introl eq_refl)))).
  apply IH. intros r Hin. apply Hall. now right.
Qed.

(** X6.  A pass over a snapshot whose roots all have a model, while every
    model's key is a root, makes no resolution and disposes nothing: the map
    is unchanged and the only thing done is the call of [updateCurrent]. *)
Theorem settled_pass_changes_nothing s roots s0 :
  snapshot s roots s0 ->
  (forall r, In r roots -> has (rootKey r) (models s) = true) ->
  (forall k, In k (keys (models s)) -> In k (rootKeys roots)) ->
  updateModels s = (Ok tt, after s0 (world s0) [EvUpdateCurrent]) /\
  models (after s0 (world s0) [EvUpdateCurrent]) = models s /\
  log (after s0 (world s0) [EvUpdateCurrent]) = log s ++ [EvUpdateCurrent].
Proof.
  intros Hsnap Hall Hroots.
  rewrite (updateModels_snapshot Hsnap).
  destruct (snapshot_state Hsnap) as (Hm0 & Hl0 & _).
  rewrite <- Hm0 in *.
  destruct (@forRoots_all_present roots (keys (models s0)) s0 Hall) as [td Ef].
  assert (Htd : td = []).
  { rewrite (forRoots_toDelete _ _ _ Ef). apply nil_of_no_member.
    intros k Hin. apply in_stale in Hin. destruct Hin as [Hin Hn]. auto. }
  subst td. split; [|split].
  - now apply reconcileRoots_run with (td := []) (s1 := s0).
  - reflexivity.
  - simpl. now rewrite Hl0.
Qed.

(** X7.  A completed pass of a session calls [updateCurrent] exactly once,
    as the last thing it does, and fires no content notification. *)
Theorem completed_pass_updates_current_once s s' :
  Reachable s ->
  updateModels s = (Ok tt, s') ->
  exists evs,
    log s' = log s ++ evs ++ [EvUpdateCurrent] /\
    count isUpdateCurrent evs = 0 /\
    count isFireTempContent evs = 0.
Proof.
  intros Hreach Hu. apply Reachable_wf in Hreach.
  destruct (updateModels_inv _ Hu)
    as [(roots & s0 & Hsnap & Hr)|(_ & e & [=])].
  destruct (snapshot_state Hsnap) as (Hm0 & Hl0 & _).
  rewrite <- Hm0 in Hreach. rewrite <- Hl0.
  destruct (reconcileRoots_complete roots s0 Hreach Hr)
    as (td & s1 & Ef & _ & _ & Hlog).
  pose proof (forRoots_frame _ _ _ Ef) as (_ & _ & _ & _ & evs1 & Hl1 & Hr1).
  destruct (isResolution_counts _ Hr1) as (_ & Hc & Hf).
  exists (evs1 ++ map EvDispose (staleKeys roots (models s0))).
  rewrite Hlog, Hl1, <- !app_assoc. split; [reflexivity|].
  rewrite !count_app, !count_map_dispose, Hc, Hf by reflexivity. auto.
Qed.

(** A loop over the roots that throws threw in the resolution for a root
    without a model. *)
Lemma forRoots_throw_inv roots : forall td s e s',
  forRoots roots td s = (Throw e, s') ->
  exists pre r post td_i s_i,
    roots = pre ++ r :: post /\
    forRoots pre td s = (Ok td_i, s_i) /\
    has (rootKey r) (models s_i) = false /\
    getTempLaunchJsonContent s_i = (Throw e, s').
Proof.
  induction roots as [|rt rest IH]; intros td s e s'; [discriminate|].
  rewrite forRoots_cons.
  destruct (visitRoot (rootKey rt) s) as [[[]|e1] s1] eqn:Ev.
  - intros Hrest. apply IH in Hrest.
    destruct Hrest as (pre & r & post & td_i & s_i & -> & Hpre & Hh & Eg).
    exists (rt :: pre), r, post, td_i, s_i. split; [reflexivity|].
    split; [|auto]. now rewrite forRoots_cons, Ev.
  - intros [= <- <-]. apply visitRoot_inv in Ev.
    inversion Ev; subst. exists [], rt, rest, td, s. auto.
Qed.

(** X8.  A pass that ends with an error has lost no model: every model the
    map had is still there, unchanged; nothing was disposed and
    [updateCurrent] was not called.  The error is one a service raised: the
    wait for the ready state, the read of the roots, or the resolution for a
    root without a model. *)
Theorem rejected_pass_keeps_every_model s e s' :
  updateModels s = (Throw e, s') ->
  (forall k, In k (keys (models s)) ->
             get k (models s') = get k (models s)) /\
  (exists evs, log s' = log s ++ evs /\
               count isDispose evs = 0 /\ count isUpdateCurrent evs = 0) /\
  ((exists w1, appStateService_reachedState_ready (world s) = (Throw e, w1)) \/
   (exists w1 w2,
       appStateService_reachedState_ready (world s) = (Ok tt, w1) /\
       workspaceService_roots w1 = (Throw e, w2)) \/
   (exists roots s0 k s_i,
       snapshot s roots s0 /\ visitedAbsent roots s0 k s_i /\
       getTempLaunchJsonContent s_i = (Throw e, s'))).
Proof.
  unfold updateModels. run_monad.
  destruct (appStateService_reachedState_ready (world s)) as [[[]|e1] w1] eqn:E1;
    simpl.
  2:{ intros [= <- <-]. simpl. split; [auto|]. split; [|eauto].
      exists []. now rewrite app_nil_r. }
  destruct (workspaceService_roots w1) as [[roots|e2] w2] eqn:E2; simpl.
  2:{ intros [= <- <-]. simpl. split; [auto|]. split; [|eauto 6].
      exists []. now rewrite app_nil_r. }
  intros Hr. fold (withWorld s w2) in Hr.
  destruct (reconcileRoots_inv _ _ Hr)
    as [(e' & [= <-] & Ef)|(? & ? & ? & [=] & _)].
  pose proof (forRoots_frame _ _ _ Ef) as (Hg & _ & _ & _ & evs & Hl & Hres).
  destruct (isResolution_counts _ Hres) as (Hd & Hc & _).
  split; [exact Hg|]. split; [eauto|].
  right. right.
  destruct (forRoots_throw_inv _ _ _ Ef)
    as (pre & r & post & td_i & s_i & Hroots & Hpre & Hh & Eg).
  exists roots, (withWorld s w2), (rootKey r), s_i.
  split; [exists w1, w2; auto|]. split; [|exact Eg].
  exists pre, r, post, td_i. auto.
Qed.

Lemma delete_delete {V} k (m : JsMap.t V) : delete k (delete k m) = delete k m.
Proof.
  unfold delete. induction m as [|[k' v] m IH]; simpl; [reflexivity|].
  destruct (String.eqb k' k) eqn:E; simpl; [exact IH|].
  rewrite E. simpl. now rewrite IH.
Qed.

(** X9.  In every state of a session a model of the map is filed under its
    own root key, and its disposal, from the pass or from outside, removes
    that entry and no other; a second disposal leaves the map as it is. *)
Theorem outside_disposal_removes_own_entry s k m :
  Reachable s ->
  get k (models s) = Some m ->
  let s1 := mkManager (world s) (delete k (models s))
                      (filesChangeListeners s) (log s ++ [EvDispose k]) in
  workspaceFolderUri m = k /\
  model_dispose m s = (Ok tt, s1) /\
  get k (models s1) = None /\
  (forall k', k' <> k -> get k' (models s1) = get k' (models s)) /\
  exists s2, model_dispose m s1 = (Ok tt, s2) /\ models s2 = models s1.
Proof.
  intros Hreach Hg s1. apply Reachable_wf in Hreach.
  destruct (proj2 Hreach _ _ Hg) as [Hk Hd].
  split; [exact Hk|]. split; [now apply model_dispose_wf|].
  split; [apply get_delete_same|]. split.
  - intros k' Hne. now apply get_delete_other.
  - unfold model_dispose. rewrite Hk, Hd. run_monad.
    eexists. split; [reflexivity|]. simpl. apply delete_delete.
Qed.
End PassProperties.
(** ** Further properties of the listener and of [doInit] *)

Section WatcherProperties.
Context {W : Type} `{Services W}.
Implicit Types (s : Manager W) (k : string).
Import JsMap JsMapFacts.

(** X10.  The file-change listener never throws and leaves the installed
    listeners as they are, whatever the batch and whatever the re-read does.
    A batch without a change of the watched [launch.json] does nothing at
    all.  A batch with one makes one resolution; when the resolution is
    rejected the listener still returns normally, the rejection is left
    unhandled and nothing is fired.  No batch makes more than one resolution,
    and nothing is fired without one. *)
Theorem listener_returns_normally name event s :
  exists s',
    onDidFilesChange_listener name event s = (Ok tt, s') /\
    filesChangeListeners s' = filesChangeListeners s /\
    exists evs,
      log s' = log s ++ evs /\
      (existsb (isTempLaunchJson name) (map change_resource (changes event))
       = false -> s' = s) /\
      (existsb (isTempLaunchJson name) (map change_resource (changes event))
       = true ->
       count isCurrentSketch evs = 1 /\
       forall e s1,
         getTempLaunchJsonContent s = (Throw e, s1) ->
         s' = after s1 (world s1) [EvUnhandledRejection e] /\
         count isFireTempContent evs = 0) /\
      count isCurrentSketch evs <= 1 /\
      count isFireTempContent evs <= count isCurrentSketch evs.
Proof.
  unfold onDidFilesChange_listener.
  destruct (existsb (isTempLaunchJson name) (map change_resource (changes event)))
    eqn:Hm.
  - rewrite forChanges_match by assumption.
    destruct (getTempLaunchJsonContent s) as [r s1] eqn:Eg.
    rewrite (rereadTempContent_run _ Eg).
    destruct (getTemp_frame _ Eg) as (Hmod & Hfcl & evs & Hl & Hr & Hc).
    destruct (isResolution_counts _ Hr) as (Hd & Hu & Hf).
    eexists. split; [reflexivity|]. simpl.
    split; [exact Hfcl|].
    exists (evs ++ notification r). rewrite Hl, <- app_assoc.
    split; [reflexivity|]. rewrite !count_app, Hc, Hf.
    split; [discriminate|]. split.
    + intros _. split.
      * destruct r as [[[u|c]|]|e]; cbn; lia.
      * intros e s2 [= -> <-]. split; [reflexivity|]. cbn. reflexivity.
    + destruct r as [[[u|c]|]|e]; cbn; lia.
  - rewrite forChanges_nomatch by assumption.
    exists s. split; [reflexivity|]. split; [reflexivity|].
    exists []. rewrite app_nil_r. cbn.
    split; [reflexivity|]. split; [reflexivity|]. split; [discriminate|]. lia.
Qed.

(** X11.  The ready callback of [doInit], by the answers of the services.
    With no valid sketch it asks for the sketch and returns, having watched
    and installed nothing.  With a sketch whose temp folder is created it
    watches the folder itself when the read of [launch.json] ends in
    file-not-found, and the file when the file is read and parsed; when the
    watch succeeds it installs exactly one listener, for the lower-case name
    of the temp folder, and closes by asking for a pass.  When the callback
    fails, no listener is installed and no pass is asked for.  The callback
    itself never touches the model map. *)
Theorem doInit_ready_outcomes s :
  (forall w1,
      sketchesServiceClient_currentSketch (world s) = (Ok InvalidSketch, w1) ->
      doInit_ready s = (Ok tt, after s w1 [EvCurrentSketch])) /\
  (forall sk w1 folder w2 w3,
      sketchesServiceClient_currentSketch (world s) = (Ok (ValidSketch sk), w1) ->
      sketchesService_getIdeTempFolderUri sk w1 = (Ok folder, w2) ->
      fileService_createFolder (new_URI folder) w2 = (Ok tt, w3) ->
      let file := uri_resolve (new_URI folder) launch_json in
      let installed w watched :=
        mkManager w (models s)
                  (filesChangeListeners s
                   ++ [toLowerCase (path_base (new_URI folder))])
                  (log s ++ resolutionEvents sk (new_URI folder)
                         ++ [EvWatch watched; EvUpdateModels]) in
      (forall e w4 w5,
          readFails file w3 e w4 -> isFileNotFound e = true ->
          fileService_watch (new_URI folder) w4 = (Ok tt, w5) ->
          doInit_ready s = (Ok tt, installed w5 (new_URI folder))) /\
      (forall value w4 json cfgs w5,
          fileService_read file w3 = (Ok value, w4) ->
          JSON_parse value = Ok json ->
          DebugConfigurationModel_parse json = Ok cfgs ->
          fileService_watch file w4 = (Ok tt, w5) ->
          doInit_ready s = (Ok tt, installed w5 file))) /\
  (forall e s',
      doInit_ready s = (Throw e, s') ->
      filesChangeListeners s' = filesChangeListeners s /\
      exists evs, log s' = log s ++ evs /\ count isUpdateModels evs = 0) /\
  (forall r s', doInit_ready s = (r, s') -> models s' = models s).
Proof.
  split; [|split; [|split]].
  - intros w1 E1. unfold doInit_ready. run_monad.
    rewrite (getTempLaunchJsonContent_run (res_invalid s E1)). reflexivity.
  - intros sk w1 folder w2 w3 E1 E2 E3 file installed. split.
    + intros e w4 w5 Hf En Ew.
      unfold doInit_ready, addFilesChangeListener. run_monad.
      rewrite (getTempLaunchJsonContent_run (res_missing s E1 E2 E3 Hf En)).
      simpl. rewrite Ew. simpl. unfold installed, tempFolderNameOf. simpl.
      rewrite <- !app_assoc. reflexivity.
    + intros value w4 json cfgs w5 E4 E5 E6 Ew.
      unfold doInit_ready, addFilesChangeListener. run_monad.
      rewrite (getTempLaunchJsonContent_run (res_content s E1 E2 E3 E4 E5 E6)).
      simpl. fold file. rewrite Ew. simpl.
      unfold installed, tempFolderNameOf. simpl. unfold file.
      rewrite uri_parent_resolve, <- !app_assoc. reflexivity.
  - intros e s'. unfold doInit_ready, addFilesChangeListener. run_monad.
    destruct (getTempLaunchJsonContent s) as [[[tc|]|e1] s1] eqn:Eg; simpl.
    + destruct (getTemp_frame _ Eg) as (_ & Hfcl & evs & Hl & Hr & _).
      destruct (fileService_watch _ (world s1)) as [[[]|e2] w5]; simpl;
        [discriminate|].
      intros [= <- <-]. simpl. split; [exact Hfcl|].
      eexists. rewrite Hl, <- app_assoc. split; [reflexivity|].
      rewrite count_app. cbn. rewrite Nat.add_0_r.
      clear - Hr. induction evs as [|ev evs IH]; [reflexivity|].
      simpl in Hr. apply andb_true_iff in Hr. destruct Hr as [He Hr].
      specialize (IH Hr). destruct ev; try discriminate He; exact IH.
    + discriminate.
    + intros [= <- <-].
      destruct (getTemp_frame _ Eg) as (_ & Hfcl & evs & Hl & Hr & _).
      split; [exact Hfcl|]. exists evs. split; [exact Hl|].
      clear - Hr. induction evs as [|ev evs IH]; [reflexivity|].
      simpl in Hr. apply andb_true_iff in Hr. destruct Hr as [He Hr].
      specialize (IH Hr). destruct ev; try discriminate He; exact IH.
  - intros r s'. apply doInit_models.
Qed.

(** X12.  The listener that the ready callback of [doInit] installs
    answers to the file the callback resolved: whenever a later batch has a
    change of [launch.json] in the temp folder that was created at
    initialisation, the listener makes the re-read, and fires the content if
    the re-read yields one. *)
Theorem installed_listener_rereads_resolved_file s s' name :
  doInit_ready s = (Ok tt, s') ->
  filesChangeListeners s' = filesChangeListeners s ++ [name] ->
  exists folder,
    In (EvCreateFolder folder) (log s') /\
    name = toLowerCase (path_base folder) /\
    forall t event r t1,
      In (uri_resolve folder launch_json) (map change_resource (changes event)) ->
      getTempLaunchJsonContent t = (r, t1) ->
      onDidFilesChange_listener name event t
      = (Ok tt, after t1 (world t1) (notification r)).
Proof.
  unfold doInit_ready, addFilesChangeListener. run_monad.
  destruct (getTempLaunchJsonContent s) as [[[tc|]|e] s1] eqn:Eg; simpl.
  - destruct (fileService_watch _ (world s1)) as [[[]|e] w5]; simpl;
      [|discriminate].
    intros [= <-]. simpl. intros Hfcl.
    pose proof (getTemp_frame _ Eg) as (_ & Hf1 & _).
    rewrite Hf1 in Hfcl. apply app_inv_head in Hfcl. injection Hfcl as <-.
    destruct (tempFolderNameOf_resolution _ Eg) as (folder & Hname & Htc).
    pose proof (getTempLaunchJsonContent_inv _ Eg) as R.
    assert (Hcreated : exists sk w4,
               s1 = after s w4 (resolutionEvents sk folder)).
    { inversion R; subst; destruct Htc as [[= ->]|(c & [= <-] & Hc)];
        simpl in *; eauto.
      apply (f_equal uri_parent) in Hc. rewrite !uri_parent_resolve in Hc.
      subst folder. eauto. }
    destruct Hcreated as (sk & w4 & ->).
    exists folder. split; [|split; [exact Hname|]].
    + simpl. rewrite !in_app_iff. unfold resolutionEvents. simpl. tauto.
    + intros t event r t1 Hin Et. unfold onDidFilesChange_listener.
      rewrite forChanges_match; [now apply rereadTempContent_run|].
      apply existsb_exists. exists (uri_resolve folder launch_json).
      split; [exact Hin|]. rewrite Hname.
      apply isTempLaunchJson_iff. split.
      * apply path_base_resolve.
      * now rewrite uri_parent_resolve.
  - intros [= <-] Hfcl. exfalso.
    pose proof (getTemp_frame _ Eg) as (_ & Hf1 & _). rewrite Hf1 in Hfcl.
    apply (f_equal (@List.length string)) in Hfcl.
    rewrite length_app in Hfcl. simpl in Hfcl. lia.
  - discriminate.
Qed.
End WatcherProperties.
(** ** The further properties on concrete sessions *)

Section FurtherWitnesses.
Import Sim Scenario.

Lemma reachable_twoModels : Reachable twoModels.
Proof.
  refine (reach_updateModels (r := Ok tt) (reach_start twoRoots) _).
  vm_compute. reflexivity.
Defined.

Lemma snapshot_same_world (s : Manager World) :
  snapshot s (roots (world s)) (withWorld s (world s)).
Proof. exists (world s), (world s). repeat split. Defined.

Lemma no_sketch_at_every_visit :
  forall k s_i,
    visitedAbsent [rootB; rootC] closedSketchPass k s_i ->
    exists w1,
      sketchesServiceClient_currentSketch (world s_i) = (Ok InvalidSketch, w1).
Proof.
  intros k s_i (pre & r & post & td & Hroots & _ & Hpre & _).
  destruct pre as [|p0 [|p1 [|p2 pre]]]; simpl in Hroots.
  - pose proof (f_equal snd Hpre) as Hs. cbn [forRoots ret snd] in Hs.
    rewrite <- Hs. exists sketchClosed. reflexivity.
  - injection Hroots as <- _ _. vm_compute in Hpre. injection Hpre as _ <-.
    eexists. reflexivity.
  - discriminate Hroots.
  - discriminate Hroots.
Defined.

Lemma pass_without_sketch_keeps_only_known_roots_witness :
  exists s',
    updateModels closedSketchPass = (Ok tt, s') /\
    (forall k, In k (JsMap.keys (models s')) <->
               In k (JsMap.keys (models closedSketchPass)) /\
               In k (rootKeys [rootB; rootC])) /\
    (forall k, In k (rootKeys [rootB; rootC]) ->
               JsMap.get k (models s') = JsMap.get k (models closedSketchPass)) /\
    exists evs,
      log s' = log closedSketchPass ++ evs /\
      count isCreateFolder evs = 0 /\ count isRead evs = 0 /\
      count isConsoleError evs = 0.
Proof.
  exact (@pass_without_sketch_keeps_only_known_roots World services
           closedSketchPass [rootB; rootC] closedSketchPass
           (reach_world sketchClosed reachable_twoModels)
           (snapshot_same_world closedSketchPass)
           no_sketch_at_every_visit).
Defined.

Lemma resolved_content_shape_witness :
  exists sk folder w,
    resolvedEmpty = after (start emptyLaunchJson) w (resolutionEvents sk folder) /\
    (Content emptyContent = TempFolder folder \/
     exists cfgs,
       Content emptyContent
       = Content (mkJsonContent (uri_resolve folder launch_json) cfgs [])) /\
    count isCreateFolder (resolutionEvents sk folder) = 1 /\
    count isRead (resolutionEvents sk folder) = 1 /\
    count isConsoleError (resolutionEvents sk folder) = 0.
Proof.
  refine (@resolved_content_shape World services (start emptyLaunchJson)
            (Content emptyContent) resolvedEmpty _).
  vm_compute. reflexivity.
Defined.

Lemma resolution_touches_only_world_and_log_witness :
  models resolvedEmpty = models (start emptyLaunchJson) /\
  filesChangeListeners resolvedEmpty
  = filesChangeListeners (start emptyLaunchJson) /\
  exists evs,
    log resolvedEmpty = log (start emptyLaunchJson) ++ evs /\
    count isFireTempContent evs = 0 /\
    count isDispose evs = 0 /\
    count isUpdateCurrent evs = 0 /\
    count isConsoleError evs <= 1 /\
    (forall a, Ok (Some (Content emptyContent)) = Ok a ->
               count isConsoleError evs = 0).
Proof.
  refine (@resolution_touches_only_world_and_log World services
            (start emptyLaunchJson) (Ok (Some (Content emptyContent)))
            resolvedEmpty _).
  vm_compute. reflexivity.
Defined.

Lemma parsed_file_seeds_model_witness :
  exists m,
    JsMap.get keyA (models Script.afterOneRootWithFile) = Some m /\
    workspaceFolderUri m = keyA /\
    config m = [Script.debugConfiguration; Script.attachConfiguration] /\
    configUri m = Some (uri_resolve (parseUri (tempFolderOf blink)) launch_json).
Proof.
  refine (@parsed_file_seeds_model Script.World Script.services
            (Script.start Script.oneRootWithFile) [rootA]
            (Script.start Script.oneRootWithFile) keyA
            (Script.start Script.oneRootWithFile) blink
            Script.oneRootWithFile (tempFolderOf blink)
            Script.oneRootWithFile Script.oneRootWithFile
            Script.launchDocument (Script.mkWorld [rootA] [])
            Script.launchValue
            [Script.debugConfiguration; Script.attachConfiguration]
            (reach_start Script.oneRootWithFile)
            (snapshot_script_start Script.oneRootWithFile)
            (@visitedAbsent_script_first Script.oneRootWithFile rootA []
                                         eq_refl)
            eq_refl eq_refl eq_refl eq_refl eq_refl eq_refl
            (Ok tt) Script.afterOneRootWithFile _).
  vm_compute. reflexivity.
Defined.

Lemma empty_snapshot_disposes_all_witness :
  exists s',
    updateModels rootsGone = (Ok tt, s') /\
    models s' = [] /\
    log s' = log rootsGone ++ map EvDispose (JsMap.keys (models rootsGone))
                           ++ [EvUpdateCurrent].
Proof.
  exact (@empty_snapshot_disposes_all World services rootsGone rootsGone
           (reach_world noRoots reachable_twoModels)
           (snapshot_same_world rootsGone)).
Defined.

Lemma every_root_has_a_model :
  forall r, In r [rootA; rootB] ->
            JsMap.has (rootKey r) (models twoModels) = true.
Proof.
  apply forallb_forall
    with (f := fun r => JsMap.has (rootKey r) (models twoModels)).
  vm_compute. reflexivity.
Defined.

Lemma every_model_has_a_root :
  forall k, In k (JsMap.keys (models twoModels)) ->
            In k (rootKeys [rootA; rootB]).
Proof.
  intros k Hin. apply existsb_eqb_in. revert k Hin.
  apply forallb_forall
    with (f := fun k => existsb (String.eqb k) (rootKeys [rootA; rootB])).
  vm_compute. reflexivity.
Defined.

Lemma settled_pass_changes_nothing_witness :
  let s0 := withWorld twoModels (world twoModels) in
  updateModels twoModels = (Ok tt, after s0 (world s0) [EvUpdateCurrent]) /\
  models (after s0 (world s0) [EvUpdateCurrent]) = models twoModels /\
  log (after s0 (world s0) [EvUpdateCurrent])
  = log twoModels ++ [EvUpdateCurrent].
Proof.
  exact (@settled_pass_changes_nothing World services twoModels
           [rootA; rootB] (withWorld twoModels (world twoModels))
           (snapshot_same_world twoModels)
           every_root_has_a_model every_model_has_a_root).
Defined.

Lemma completed_pass_updates_current_once_witness :
  exists evs,
    log afterSecondPass = log rootRemoved ++ evs ++ [EvUpdateCurrent] /\
    count isUpdateCurrent evs = 0 /\
    count isFireTempContent evs = 0.
Proof.
  refine (@completed_pass_updates_current_once World services rootRemoved
            afterSecondPass reachable_rootRemoved _).
  vm_compute. reflexivity.
Defined.

Lemma rejected_pass_keeps_every_model_witness :
  (forall k, In k (JsMap.keys (models beforeRejectedPass)) ->
             JsMap.get k (models afterRejectedPass)
             = JsMap.get k (models beforeRejectedPass)) /\
  (exists evs, log afterRejectedPass = log beforeRejectedPass ++ evs /\
               count isDispose evs = 0 /\ count isUpdateCurrent evs = 0) /\
  ((exists w1, appStateService_reachedState_ready (world beforeRejectedPass)
               = (Throw syntaxError, w1)) \/
   (exists w1 w2,
       appStateService_reachedState_ready (world beforeRejectedPass) = (Ok tt, w1) /\
       workspaceService_roots w1 = (Throw syntaxError, w2)) \/
   (exists roots s0 k s_i,
       snapshot beforeRejectedPass roots s0 /\ visitedAbsent roots s0 k s_i /\
       getTempLaunchJsonContent s_i = (Throw syntaxError, afterRejectedPass))).
Proof.
  refine (@rejected_pass_keeps_every_model World services beforeRejectedPass
            syntaxError afterRejectedPass _).
  vm_compute. reflexivity.
Defined.

Lemma outside_disposal_removes_own_entry_witness :
  let s1 := mkManager (world twoModels)
                      (JsMap.delete keyA (models twoModels))
                      (filesChangeListeners twoModels)
                      (log twoModels ++ [EvDispose keyA]) in
  workspaceFolderUri modelA = keyA /\
  model_dispose modelA twoModels = (Ok tt, s1) /\
  JsMap.get keyA (models s1) = None /\
  (forall k', k' <> keyA ->
              JsMap.get k' (models s1) = JsMap.get k' (models twoModels)) /\
  exists s2, model_dispose modelA s1 = (Ok tt, s2) /\ models s2 = models s1.
Proof.
  refine (@outside_disposal_removes_own_entry World services twoModels
            keyA modelA reachable_twoModels _).
  vm_compute. reflexivity.
Defined.

Lemma listener_returns_normally_witness :
  let s1 := after (start brokenLaunchJson) brokenWithFolder
                  (resolutionEvents blink tempFolder
                   ++ [EvConsoleError load_error_message syntaxError]) in
  onDidFilesChange_listener "arduino-ide2-a0337d47" launchJsonChanged
                            (start brokenLaunchJson)
  = (Ok tt, after s1 (world s1) [EvUnhandledRejection syntaxError]) /\
  onDidFilesChange_listener "arduino-ide2-a0337d47" sketchChanged
                            (start brokenLaunchJson)
  = (Ok tt, start brokenLaunchJson).
Proof.
  split.
  - destruct (@listener_returns_normally World services
                "arduino-ide2-a0337d47" launchJsonChanged
                (start brokenLaunchJson))
      as (s' & Hl & _ & evs & _ & _ & Hmatch & _).
    destruct (Hmatch eq_refl) as [_ Hthrow].
    destruct (Hthrow syntaxError
                (after (start brokenLaunchJson) brokenWithFolder
                       (resolutionEvents blink tempFolder
                        ++ [EvConsoleError load_error_message syntaxError])))
      as [Hs' _]; [vm_compute; reflexivity|].
    rewrite Hl, Hs'. reflexivity.
  - destruct (@listener_returns_normally World services
                "arduino-ide2-a0337d47" sketchChanged
                (start brokenLaunchJson))
      as (s' & Hl & _ & evs & _ & Hnone & _).
    rewrite Hl, (Hnone eq_refl). reflexivity.
Defined.

Lemma doInit_ready_outcomes_witness :
  let folder := tempFolder in
  let file := uri_resolve folder launch_json in
  doInit_ready (start noSketch)
  = (Ok tt, after (start noSketch) noSketch [EvCurrentSketch]) /\
  doInit_ready (Script.start Script.oneRootNoFile)
  = (Ok tt,
     mkManager Script.oneRootNoFile [] ["arduino-ide2-a0337d47"]
               (resolutionEvents blink folder
                ++ [EvWatch folder; EvUpdateModels])) /\
  doInit_ready (Script.start Script.oneRootWithFile)
  = (Ok tt,
     mkManager (Script.mkWorld [rootA] []) [] ["arduino-ide2-a0337d47"]
               (resolutionEvents blink folder
                ++ [EvWatch file; EvUpdateModels])).
Proof.
  split; [|split].
  - exact (proj1 (@doInit_ready_outcomes World services (start noSketch))
                 noSketch eq_refl).
  - exact (proj1
             (proj1 (proj2 (@doInit_ready_outcomes
                              Script.World Script.services
                              (Script.start Script.oneRootNoFile)))
                    blink Script.oneRootNoFile (tempFolderOf blink)
                    Script.oneRootNoFile Script.oneRootNoFile
                    eq_refl eq_refl eq_refl)
             Script.fileNotFound Script.oneRootNoFile Script.oneRootNoFile
             (or_introl eq_refl) eq_refl eq_refl).
  - exact (proj2
             (proj1 (proj2 (@doInit_ready_outcomes
                              Script.World Script.services
                              (Script.start Script.oneRootWithFile)))
                    blink Script.oneRootWithFile (tempFolderOf blink)
                    Script.oneRootWithFile Script.oneRootWithFile
                    eq_refl eq_refl eq_refl)
             Script.launchDocument (Script.mkWorld [rootA] [])
             Script.launchValue
             [Script.debugConfiguration; Script.attachConfiguration]
             (Script.mkWorld [rootA] [])
             eq_refl eq_refl eq_refl eq_refl).
Defined.

Lemma installed_listener_rereads_resolved_file_witness :
  exists folder,
    In (EvCreateFolder folder) (log afterInit) /\
    "arduino-ide2-a0337d47" = toLowerCase (path_base folder) /\
    forall (t : Manager World) event r t1,
      In (uri_resolve folder launch_json) (map change_resource (changes event)) ->
      getTempLaunchJsonContent t = (r, t1) ->
      onDidFilesChange_listener "arduino-ide2-a0337d47" event t
      = (Ok tt, after t1 (world t1) (notification r)).
Proof.
  refine (@installed_listener_rereads_resolved_file World services
            (start emptyLaunchJson) afterInit "arduino-ide2-a0337d47" _ _);
    vm_compute; reflexivity.
Defined.
End FurtherWitnesses.
